(** * K-fold cross-validation harness (mlpack, core/cv/k_fold_cv_impl.hpp)

    A shallow embedding of [KFoldCV]: the fold geometry, the staging of the
    input buffers done by [InitKFoldCVMat], the training and validation
    windows, the fold loop of [TrainAndEvaluate] and the model accessor.

    Conventions.
    - [size_t] values are integers of [Z] in the range [0, 2^64); every
      arithmetic operation of the source on them is written with its
      wrap-around ([SizeT.add], [SizeT.sub], [SizeT.mul]).
    - A matrix or row vector is the list of its columns; the column type is
      arbitrary, so that the same code serves features, labels and weights.
    - C++ exceptions are values of [exn]; a constructor returns a [result],
      a member function returns its [result] together with the harness
      state it leaves behind.
    - Metric scores are rationals: rounding of [double] is not modelled. *)

From Stdlib Require Import ZArith List Lia Bool QArith.
Import ListNotations.
Close Scope Q_scope.
Local Open Scope Z_scope.

(** ** Machine integers *)

Module SizeT.

Definition modulus : Z := 2 ^ 64.

Definition wrap (z : Z) : Z := z mod modulus.

Definition add (a b : Z) : Z := wrap (a + b).
Definition sub (a b : Z) : Z := wrap (a - b).
Definition mul (a b : Z) : Z := wrap (a * b).
(** Unsigned division; the source only divides by [k >= 2]. *)
Definition div (a b : Z) : Z := a / b.

Definition in_range (z : Z) : Prop := 0 <= z < modulus.

End SizeT.

(** ** Exceptions and results *)

Inductive exn : Type :=
| InvalidArgument        (* std::invalid_argument, thrown by the constructor *)
| LogicError             (* std::logic_error, thrown by Model() and mean() *)
| DatasetInconsistency   (* raised by the dataset validator *)
| IndexOutOfBounds       (* Armadillo's checked column access *)
| OutOfBuffer            (* a raw view that leaves the staged buffer *)
| Thrown (code : nat).   (* any failure of the model or of the metric *)

Inductive result (A : Type) : Type :=
| Ok (a : A)
| Err (e : exn).
Arguments Ok {A} a.
Arguments Err {A} e.

Definition rbind {A B} (r : result A) (f : A -> result B) : result B :=
  match r with
  | Ok a => f a
  | Err e => Err e
  end.

Notation "x <- c ;; k" := (rbind c (fun x => k))
  (at level 61, c at next level, right associativity).

(** ** The part of Armadillo that the harness uses

    Armadillo is an external library; these definitions follow its
    documented behaviour with bounds checking enabled (its default). *)

Module Arma.
Section Columns.
Context {A : Type}.

Definition n_cols (m : list A) : Z := Z.of_nat (length m).

(** The [len] columns of [m] from column [first] on. *)
Definition span (m : list A) (first len : Z) : list A :=
  firstn (Z.to_nat len) (skipn (Z.to_nat first) m).

(** [m.cols(first, last)]: the columns [first..last], both included.
    Armadillo rejects [first > last] and [last >= n_cols]. *)
Definition cols (m : list A) (first last : Z) : result (list A) :=
  if (last <? first) || (n_cols m <=? last)
  then Err IndexOutOfBounds
  else Ok (span m first (last - first + 1)).

(** [join_rows(a, b)]: the columns of [a] followed by those of [b]. *)
Definition join_rows (a b : list A) : list A := a ++ b.

(** [Mat(m.colptr(first), n_rows, len, false, true)]: a view that
    aliases [len] columns of [m] from column [first] on.  Nothing is
    checked in C++; reading past the buffer is undefined there and is a
    failure here. *)
Definition colptr_view (m : list A) (first len : Z) : result (list A) :=
  if first + len <=? n_cols m
  then Ok (span m first len)
  else Err OutOfBuffer.
End Columns.

(** [arma::mean(v)]: the sum of the elements divided by their number;
    Armadillo rejects an empty vector. *)
Definition accu (v : list Q) : Q := fold_right Qplus (0#1)%Q v.

Definition mean (v : list Q) : result Q :=
  match v with
  | [] => Err LogicError
  | _ => Ok (accu v / inject_Z (Z.of_nat (length v)))%Q
  end.

(** [v(i) = x] on a vector: the element at index [i] is overwritten. *)
Fixpoint set_elem (v : list Q) (i : nat) (x : Q) : list Q :=
  match v, i with
  | [], _ => []
  | _ :: t, O => x :: t
  | h :: t, S j => h :: set_elem t j x
  end.
End Arma.

(** ** Fold geometry and staging of one buffer *)

Record Geometry : Type := mkGeometry {
  g_binSize : Z;
  g_trainingSubsetSize : Z;
  g_lastBinSize : Z
}.

(** [InitKFoldCVMat(source, destination)].  The three geometry members are
    assigned first and keep their values whatever happens afterwards; the
    second component is the value given to [destination], or the exception
    raised while it is computed. *)
Definition InitKFoldCVMat {A} (k : Z) (source : list A)
  : Geometry * result (list A) :=
  let binSize := SizeT.div (Arma.n_cols source) k in
  let trainingSubsetSize := SizeT.mul binSize (SizeT.sub k 1) in
  let lastBinSize :=
    SizeT.sub (Arma.n_cols source) (SizeT.mul (SizeT.sub k 1) binSize) in
  (mkGeometry binSize trainingSubsetSize lastBinSize,
   if k =? 2 then Ok source
   else
     dup <- Arma.cols source 0
              (SizeT.sub (SizeT.sub trainingSubsetSize binSize) 1) ;;
     Ok (Arma.join_rows source dup)).

(** Staged column [j] holds original column [j] when [j < n] and original
    column [j - n] in the duplicated tail. *)
Definition orig_col (n j : Z) : Z := if j <? n then j else j - n.

(** The columns [first, first + len) of a window, in order. *)
Definition window_cols (first len : Z) : list Z :=
  map (fun d => first + Z.of_nat d) (seq 0 (Z.to_nat len)).

(** The fold indices visited by [for (size_t i = 0; i < k; ++i)]. *)
Definition fold_indices (k : Z) : list Z :=
  map Z.of_nat (seq 0 (Z.to_nat k)).

(** ** The harness *)

Section Harness.

Variables Col Lab Wt : Type.
Variable MLAlgorithm : Type.
Variable Args : Type.

(** The collaborators: the two training operations of the base, the metric,
    and the compile-time capability that selects the weighted overload. *)
Variable Train : list Col -> list Lab -> Args -> result MLAlgorithm.
Variable TrainWeighted :
  list Col -> list Lab -> list Wt -> Args -> result MLAlgorithm.
Variable MetricEvaluate : MLAlgorithm -> list Col -> list Lab -> result Q.
Variable SupportsWeights : bool.

Record KFoldCV : Type := mkKFoldCV {
  k : Z;
  xs : list Col;
  ys : list Lab;
  weights : list Wt;
  binSize : Z;
  trainingSubsetSize : Z;
  lastBinSize : Z;
  modelPtr : option MLAlgorithm
}.

Definition set_modelPtr (h : KFoldCV) (p : option MLAlgorithm) : KFoldCV :=
  mkKFoldCV (k h) (xs h) (ys h) (weights h)
            (binSize h) (trainingSubsetSize h) (lastBinSize h) p.

(** Modelled from the spec: the dataset validator [AssertDataConsistency] of
    the base class, which is not among the sources; features and labels must
    have the same number of columns. *)
Definition AssertDataConsistency (xs_ : list Col) (ys_ : list Lab)
  : result unit :=
  if Arma.n_cols xs_ =? Arma.n_cols ys_ then Ok tt
  else Err DatasetInconsistency.

(** Modelled from the spec: the dataset validator [AssertWeightsConsistency]
    of the base class, which is not among the sources; there must be one
    weight per feature column. *)
Definition AssertWeightsConsistency (xs_ : list Col) (weights_ : list Wt)
  : result unit :=
  if Arma.n_cols weights_ =? Arma.n_cols xs_ then Ok tt
  else Err DatasetInconsistency.

(** The private constructor [KFoldCV(Base&&, k, xs, ys)]; the parameters
    carry an underscore to tell them from the members they initialise.  The
    weight buffer and the model pointer are default-initialised: empty and
    null. *)
Definition KFoldCV_new (k_ : Z) (xs_ : list Col) (ys_ : list Lab)
  : result KFoldCV :=
  if k_ <? 2 then Err InvalidArgument
  else
    _ <- AssertDataConsistency xs_ ys_ ;;
    let (_, dx) := InitKFoldCVMat k_ xs_ in
    this_xs <- dx ;;
    let (g, dy) := InitKFoldCVMat k_ ys_ in
    this_ys <- dy ;;
    Ok (mkKFoldCV k_ this_xs this_ys []
          (g_binSize g) (g_trainingSubsetSize g) (g_lastBinSize g) None).

(** The private constructor [KFoldCV(Base&&, k, xs, ys, weights)], which
    delegates to the previous one. *)
Definition KFoldCV_new_weights (k_ : Z) (xs_ : list Col) (ys_ : list Lab)
  (weights_ : list Wt) : result KFoldCV :=
  h <- KFoldCV_new k_ xs_ ys_ ;;
  _ <- AssertWeightsConsistency xs_ weights_ ;;
  let (g, dw) := InitKFoldCVMat k_ weights_ in
  this_weights <- dw ;;
  Ok (mkKFoldCV (k h) (xs h) (ys h) this_weights
        (g_binSize g) (g_trainingSubsetSize g) (g_lastBinSize g) (modelPtr h)).

(** Any of the public constructors: with or without a weight buffer. *)
Definition Construct (k_ : Z) (xs_ : list Col) (ys_ : list Lab)
  (weights_ : option (list Wt)) : result KFoldCV :=
  match weights_ with
  | None => KFoldCV_new k_ xs_ ys_
  | Some w => KFoldCV_new_weights k_ xs_ ys_ w
  end.

(** [Model()]: the retained model, or a logic error while the pointer is
    null. *)
Definition Model (h : KFoldCV) : result MLAlgorithm :=
  match modelPtr h with
  | None => Err LogicError
  | Some m => Ok m
  end.

Definition ValidationSubsetFirstCol (h : KFoldCV) (i : Z) : Z :=
  if i =? 0 then trainingSubsetSize h
  else SizeT.mul (binSize h) (SizeT.sub i 1).

(** The local [subsetSize] of [GetTrainingSubset]. *)
Definition TrainingSubsetSize (h : KFoldCV) (i : Z) : Z :=
  if i =? SizeT.sub (k h) 1
  then SizeT.add (lastBinSize h) (SizeT.mul (SizeT.sub (k h) 2) (binSize h))
  else trainingSubsetSize h.

(** The column whose address [GetTrainingSubset] takes,
    [m.colptr(binSize * i)]. *)
Definition TrainingSubsetFirstCol (h : KFoldCV) (i : Z) : Z :=
  SizeT.mul (binSize h) i.

(** One definition serves the matrix and the row-vector overloads, which
    differ in the row count only. *)
Definition GetTrainingSubset {A} (h : KFoldCV) (m : list A) (i : Z)
  : result (list A) :=
  Arma.colptr_view m (TrainingSubsetFirstCol h i) (TrainingSubsetSize h i).

(** The local [subsetSize] of [GetValidationSubset]. *)
Definition ValidationSubsetSize (h : KFoldCV) (i : Z) : Z :=
  if i =? 0 then lastBinSize h else binSize h.

Definition GetValidationSubset {A} (h : KFoldCV) (m : list A) (i : Z)
  : result (list A) :=
  Arma.colptr_view m (ValidationSubsetFirstCol h i) (ValidationSubsetSize h i).

(** The training call of the overload for algorithms without weights. *)
Definition TrainPlain (h : KFoldCV) (args : Args) (i : Z)
  : result MLAlgorithm :=
  trainX <- GetTrainingSubset h (xs h) i ;;
  trainY <- GetTrainingSubset h (ys h) i ;;
  Train trainX trainY args.

(** The training call of the overload for algorithms with weights, which
    tests [weights.n_elem > 0]. *)
Definition TrainMaybeWeighted (h : KFoldCV) (args : Args) (i : Z)
  : result MLAlgorithm :=
  if 0 <? Arma.n_cols (weights h)
  then
    trainX <- GetTrainingSubset h (xs h) i ;;
    trainY <- GetTrainingSubset h (ys h) i ;;
    trainW <- GetTrainingSubset h (weights h) i ;;
    TrainWeighted trainX trainY trainW args
  else TrainPlain h args i.

(** [Metric::Evaluate(model, GetValidationSubset(xs, i),
    GetValidationSubset(ys, i))]. *)
Definition Score (h : KFoldCV) (model : MLAlgorithm) (i : Z) : result Q :=
  valX <- GetValidationSubset h (xs h) i ;;
  valY <- GetValidationSubset h (ys h) i ;;
  MetricEvaluate model valX valY.

(** The body of the [for] loop, run for the indices [idx] in turn.  The
    harness state is threaded through and survives an exception. *)
Fixpoint FoldLoop (train : KFoldCV -> Args -> Z -> result MLAlgorithm)
  (args : Args) (idx : list Z) (evaluations : list Q) (h : KFoldCV)
  : result (list Q) * KFoldCV :=
  match idx with
  | [] => (Ok evaluations, h)
  | i :: rest =>
    match train h args i with
    | Err e => (Err e, h)
    | Ok model =>
      match Score h model i with
      | Err e => (Err e, h)
      | Ok score =>
        let evaluations' := Arma.set_elem evaluations (Z.to_nat i) score in
        let h' := if i =? SizeT.sub (k h) 1
                  then set_modelPtr h (Some model) else h in
        FoldLoop train args rest evaluations' h'
      end
    end
  end.

(** The two overloads share their shape: a vector of [k] scores, the loop,
    the mean.  [arma::vec evaluations(k)] leaves its elements unspecified;
    they are zeros here, and the loop overwrites each of them. *)
Definition RunFolds (train : KFoldCV -> Args -> Z -> result MLAlgorithm)
  (h : KFoldCV) (args : Args) : result Q * KFoldCV :=
  let evaluations := repeat (0#1)%Q (Z.to_nat (k h)) in
  match FoldLoop train args (fold_indices (k h)) evaluations h with
  | (Ok evaluations', h') => (Arma.mean evaluations', h')
  | (Err e, h') => (Err e, h')
  end.

Definition TrainAndEvaluate : KFoldCV -> Args -> result Q * KFoldCV :=
  RunFolds TrainPlain.

Definition TrainAndEvaluateWeights : KFoldCV -> Args -> result Q * KFoldCV :=
  RunFolds TrainMaybeWeighted.

(** [Evaluate(args...)] calls [TrainAndEvaluate(args...)]; which overload
    that is, is settled at compile time by the capability of the
    algorithm. *)
Definition Evaluate (h : KFoldCV) (args : Args) : result Q * KFoldCV :=
  if SupportsWeights then TrainAndEvaluateWeights h args
  else TrainAndEvaluate h args.

(** What the constructor establishes, in exact integers: the members of a
    harness built from fold count [K] and buffers [X], [Y] and (optionally)
    [W].  A run changes none of them. *)
Record StagedFrom (K : Z) (X : list Col) (Y : list Lab)
  (W : option (list Wt)) (h : KFoldCV) : Prop := mkStagedFrom {
  sf_k : k h = K;
  sf_folds : 2 <= K;
  sf_enough : K = 2 \/ K <= Arma.n_cols X;
  sf_labels : Arma.n_cols Y = Arma.n_cols X;
  sf_binSize : binSize h = Arma.n_cols X / K;
  sf_trainingSubsetSize :
    trainingSubsetSize h = Arma.n_cols X / K * (K - 1);
  sf_lastBinSize :
    lastBinSize h = Arma.n_cols X - (K - 1) * (Arma.n_cols X / K);
  sf_xs : xs h = X ++ firstn (Z.to_nat (Arma.n_cols X / K * (K - 2))) X;
  sf_ys : ys h = Y ++ firstn (Z.to_nat (Arma.n_cols X / K * (K - 2))) Y;
  sf_weights :
    match W with
    | None => weights h = []
    | Some w =>
      Arma.n_cols w = Arma.n_cols X /\
      weights h = w ++ firstn (Z.to_nat (Arma.n_cols X / K * (K - 2))) w
    end
}.

(** The harness states reached from [h0] by [Evaluate] calls that all
    failed. *)
Inductive NoRunCompleted (h0 : KFoldCV) : KFoldCV -> Prop :=
| nrc_fresh : NoRunCompleted h0 h0
| nrc_failed h args e h' :
    NoRunCompleted h0 h ->
    Evaluate h args = (Err e, h') ->
    NoRunCompleted h0 h'.

(** The harness states reached from [h0] by any [Evaluate] calls. *)
Inductive Reachable (h0 : KFoldCV) : KFoldCV -> Prop :=
| reach_fresh : Reachable h0 h0
| reach_run h args r h' :
    Reachable h0 h ->
    Evaluate h args = (r, h') ->
    Reachable h0 h'.

(** The training call that [Evaluate] makes for fold [i]. *)
Definition TrainingCall (h : KFoldCV) (args : Args) (i : Z)
  : result MLAlgorithm :=
  if SupportsWeights then TrainMaybeWeighted h args i
  else TrainPlain h args i.

(** The original columns that the validation window of fold [i] holds,
    for a dataset of [n] columns. *)
Definition ValidationColumns (h : KFoldCV) (n i : Z) : list Z :=
  map (orig_col n)
      (window_cols (ValidationSubsetFirstCol h i) (ValidationSubsetSize h i)).

(** The original columns that the training window of fold [i] holds, for a
    dataset of [n] columns. *)
Definition TrainingColumns (h : KFoldCV) (n i : Z) : list Z :=
  map (orig_col n)
      (window_cols (TrainingSubsetFirstCol h i) (TrainingSubsetSize h i)).

(** What one iteration of the loop computes for fold [i]: the training call
    followed by the metric. *)
Definition FoldOutcome (h : KFoldCV) (args : Args) (i : Z) : result Q :=
  model <- TrainingCall h args i ;;
  Score h model i.

(** Sample [c] of the features [X] is validated in fold [i]: the window that
    [GetValidationSubset] returns for fold [i] has a position [p], holding
    the staged column [ValidationSubsetFirstCol i + p], that maps back to
    [c]; the column found there is the original column [c]. *)
Definition InValidationWindow (h : KFoldCV) (X : list Col) (i c : Z) : Prop :=
  exists v p,
    GetValidationSubset h (xs h) i = Ok v /\
    0 <= p < Arma.n_cols v /\
    orig_col (Arma.n_cols X) (ValidationSubsetFirstCol h i + p) = c /\
    nth_error v (Z.to_nat p) = nth_error X (Z.to_nat c).

(** The folds in the order in which their validation windows lie in the
    dataset: 1, ..., [K - 1], then 0. *)
Definition validation_order (K : Z) : list Z :=
  map Z.of_nat (seq 1 (Z.to_nat K - 1)) ++ [0].

End Harness.

Arguments KFoldCV : clear implicits.
Arguments mkKFoldCV {Col Lab Wt MLAlgorithm}.
Arguments k {Col Lab Wt MLAlgorithm} h : rename.
Arguments xs {Col Lab Wt MLAlgorithm} h : rename.
Arguments ys {Col Lab Wt MLAlgorithm} h : rename.
Arguments weights {Col Lab Wt MLAlgorithm} h : rename.
Arguments binSize {Col Lab Wt MLAlgorithm} h : rename.
Arguments trainingSubsetSize {Col Lab Wt MLAlgorithm} h : rename.
Arguments lastBinSize {Col Lab Wt MLAlgorithm} h : rename.
Arguments modelPtr {Col Lab Wt MLAlgorithm} h : rename.
Arguments set_modelPtr {Col Lab Wt MLAlgorithm} h p.
Arguments AssertDataConsistency {Col Lab} xs_ ys_.
Arguments AssertWeightsConsistency {Col Wt} xs_ weights_.
Arguments KFoldCV_new {Col Lab Wt} MLAlgorithm k_ xs_ ys_.
Arguments KFoldCV_new_weights {Col Lab Wt} MLAlgorithm k_ xs_ ys_ weights_.
Arguments Construct {Col Lab Wt} MLAlgorithm k_ xs_ ys_ weights_.
Arguments Model {Col Lab Wt MLAlgorithm} h.
Arguments ValidationSubsetFirstCol {Col Lab Wt MLAlgorithm} h i.
Arguments ValidationSubsetSize {Col Lab Wt MLAlgorithm} h i.
Arguments TrainingSubsetFirstCol {Col Lab Wt MLAlgorithm} h i.
Arguments TrainingSubsetSize {Col Lab Wt MLAlgorithm} h i.
Arguments GetTrainingSubset {Col Lab Wt MLAlgorithm A} h m i.
Arguments GetValidationSubset {Col Lab Wt MLAlgorithm A} h m i.
Arguments TrainPlain {Col Lab Wt MLAlgorithm Args} Train h args i.
Arguments TrainMaybeWeighted {Col Lab Wt MLAlgorithm Args}
  Train TrainWeighted h args i.
Arguments Score {Col Lab Wt MLAlgorithm} MetricEvaluate h model i.
Arguments FoldLoop {Col Lab Wt MLAlgorithm Args}
  MetricEvaluate train args idx evaluations h.
Arguments RunFolds {Col Lab Wt MLAlgorithm Args} MetricEvaluate train h args.
Arguments TrainAndEvaluate {Col Lab Wt MLAlgorithm Args}
  Train MetricEvaluate _ _.
Arguments TrainAndEvaluateWeights {Col Lab Wt MLAlgorithm Args}
  Train TrainWeighted MetricEvaluate _ _.
Arguments Evaluate {Col Lab Wt MLAlgorithm Args}
  Train TrainWeighted MetricEvaluate SupportsWeights h args.
Arguments StagedFrom {Col Lab Wt MLAlgorithm} K X Y W h.
Arguments NoRunCompleted {Col Lab Wt MLAlgorithm Args}
  Train TrainWeighted MetricEvaluate SupportsWeights h0 _.
Arguments ValidationColumns {Col Lab Wt MLAlgorithm} h n i.
Arguments Reachable {Col Lab Wt MLAlgorithm Args}
  Train TrainWeighted MetricEvaluate SupportsWeights h0 _.
Arguments TrainingCall {Col Lab Wt MLAlgorithm Args}
  Train TrainWeighted SupportsWeights h args i.
Arguments TrainingColumns {Col Lab Wt MLAlgorithm} h n i.
Arguments InValidationWindow {Col Lab Wt MLAlgorithm} h X i c.
Arguments FoldOutcome {Col Lab Wt MLAlgorithm Args}
  Train TrainWeighted MetricEvaluate SupportsWeights h args i.

(** ** A deterministic stub model and metric

    Samples are numbered columns, a model is the training set it was given
    (followed by the weights, if any), and the score of a fold is the number
    of its validation columns. *)

Module Stub.

Definition ten : list nat := seq 0 10.

Definition stubTrain (x y : list nat) (_ : unit) : result (list nat) := Ok x.

Definition stubTrainWeighted (x y w : list nat) (_ : unit)
  : result (list nat) := Ok (x ++ w).

Definition stubMetric (model x y : list nat) : result Q :=
  Ok (inject_Z (Arma.n_cols x)).

(** A training operation that fails on the fold whose training window starts
    with sample 6: the last fold of ten samples in three folds. *)
Definition failingTrain (x y : list nat) (_ : unit) : result (list nat) :=
  match x with
  | 6%nat :: _ => Err (Thrown 1)
  | _ => Ok x
  end.

(** Ten samples in three folds (scenario B). *)
Definition harnessB : KFoldCV nat nat nat (list nat) :=
  mkKFoldCV 3 (ten ++ [0; 1; 2]%nat) (ten ++ [0; 1; 2]%nat) [] 3 6 4 None.

(** Ten samples in five folds (scenario A). *)
Definition harnessA : KFoldCV nat nat nat (list nat) :=
  mkKFoldCV 5 (ten ++ seq 0 6) (ten ++ seq 0 6) [] 2 8 2 None.

(** Ten samples in two folds (scenario C). *)
Definition harnessC : KFoldCV nat nat nat (list nat) :=
  mkKFoldCV 2 ten ten [] 5 5 5 None.

(** A metric that fails on the fold whose validation window starts with
    sample 0: fold 1 of ten samples in three folds. *)
Definition failingMetric (model x y : list nat) : result Q :=
  match x with
  | 0%nat :: _ => Err (Thrown 2)
  | _ => Ok (inject_Z (Arma.n_cols x))
  end.

(** Ten weighted samples in three folds; the weight of sample [c] is
    [100 + c]. *)
Definition tenWeights : list nat := seq 100 10.

Definition harnessW : KFoldCV nat nat nat (list nat) :=
  mkKFoldCV 3 (ten ++ [0; 1; 2]%nat) (ten ++ [0; 1; 2]%nat)
            (tenWeights ++ [100; 101; 102]%nat) 3 6 4 None.

End Stub.

(** * Properties *)

(** ** Exact size_t arithmetic *)

Module SizeTFacts.
Import SizeT.

Lemma wrap_small z : in_range z -> wrap z = z.
Proof. unfold in_range, wrap; intros H; now apply Z.mod_small. Qed.

Lemma modulus_pos : 0 < modulus.
Proof. reflexivity. Qed.

Lemma sub_exact a b : in_range a -> 0 <= b <= a -> sub a b = a - b.
Proof.
  unfold sub, in_range; intros Ha Hb.
  apply wrap_small; unfold in_range; lia.
Qed.

Lemma mul_exact a b c :
  in_range c -> 0 <= a -> 0 <= b -> a * b <= c -> mul a b = a * b.
Proof.
  unfold mul, in_range; intros Hc Ha Hb Hab.
  apply wrap_small; unfold in_range; nia.
Qed.

Lemma add_exact a b c :
  in_range c -> 0 <= a -> 0 <= b -> a + b <= c -> add a b = a + b.
Proof.
  unfold add, in_range; intros Hc Ha Hb Hab.
  apply wrap_small; unfold in_range; lia.
Qed.

(** [0 - 1] wraps to the largest value. *)
Lemma sub_underflow : sub 0 1 = modulus - 1.
Proof. reflexivity. Qed.

End SizeTFacts.

(** Quotient and remainder of the sample count by the fold count. *)
Lemma bin_bounds n k :
  0 <= n -> 0 < k ->
  0 <= n / k /\ n / k * k <= n < n / k * k + k.
Proof.
  intros Hn Hk.
  pose proof (Z.div_mod n k ltac:(lia)) as E.
  pose proof (Z.mod_pos_bound n k Hk) as B.
  assert (0 <= n / k) by (apply Z.div_pos; lia).
  nia.
Qed.

Lemma bin_positive n k : 0 < k -> k <= n -> 1 <= n / k.
Proof.
  intros Hk Hn.
  pose proof (bin_bounds n k ltac:(lia) Hk). nia.
Qed.

Lemma geometry_exact {A} (K : Z) (source : list A) :
  SizeT.in_range (Arma.n_cols source) -> 1 <= K -> SizeT.in_range K ->
  fst (InitKFoldCVMat K source) =
    let n := Arma.n_cols source in
    mkGeometry (n / K) (n / K * (K - 1)) (n - (K - 1) * (n / K)).
Proof.
  intros Hn HK1 HK. cbn [fst InitKFoldCVMat]. cbv zeta.
  set (n := Arma.n_cols source) in *.
  destruct (bin_bounds n K) as (Hb0 & Hb1 & Hb2); [apply Hn | lia |].
  unfold SizeT.div.
  assert (EK : SizeT.sub K 1 = K - 1) by (apply SizeTFacts.sub_exact; [exact HK | lia]).
  rewrite EK.
  assert (E1 : SizeT.mul (n / K) (K - 1) = n / K * (K - 1))
    by (apply SizeTFacts.mul_exact with (c := n); try assumption; nia).
  assert (E2 : SizeT.mul (K - 1) (n / K) = (K - 1) * (n / K))
    by (apply SizeTFacts.mul_exact with (c := n); try assumption; nia).
  rewrite E1, E2.
  rewrite SizeTFacts.sub_exact; [reflexivity | exact Hn | nia].
Qed.

(** ** Staging *)

Lemma cols_prefix {A} (m : list A) (len : Z) :
  1 <= len <= Arma.n_cols m ->
  Arma.cols m 0 (len - 1) = Ok (firstn (Z.to_nat len) m).
Proof.
  intros H. unfold Arma.cols.
  destruct (len - 1 <? 0) eqn:E1; [apply Z.ltb_lt in E1; lia |].
  destruct (Arma.n_cols m <=? len - 1) eqn:E2; [apply Z.leb_le in E2; lia |].
  cbn [orb]. replace (len - 1 - 0 + 1) with len by lia.
  reflexivity.
Qed.

Lemma cols_past_the_end {A} (m : list A) (first last : Z) :
  Arma.n_cols m <= last -> Arma.cols m first last = Err IndexOutOfBounds.
Proof.
  intros H. unfold Arma.cols.
  destruct (Arma.n_cols m <=? last) eqn:E; [| apply Z.leb_gt in E; lia].
  now rewrite orb_true_r.
Qed.

Lemma staging_exact {A} (K : Z) (source : list A) :
  let n := Arma.n_cols source in
  SizeT.in_range n -> 2 <= K -> SizeT.in_range K -> K = 2 \/ K <= n ->
  snd (InitKFoldCVMat K source) =
    Ok (source ++ firstn (Z.to_nat (n / K * (K - 2))) source).
Proof.
  intros n Hn HK2 HK Hcase.
  pose proof (geometry_exact K source Hn ltac:(lia) HK) as G.
  unfold InitKFoldCVMat in *. cbn [fst snd] in *. cbv zeta in G.
  injection G as Gt Gl. fold n in Gt, Gl |- *.
  destruct (K =? 2) eqn:EK.
  - apply Z.eqb_eq in EK. subst K.
    replace (n / 2 * (2 - 2)) with 0 by lia.
    cbn [Z.to_nat firstn]. now rewrite app_nil_r.
  - apply Z.eqb_neq in EK.
    assert (HKn : K <= n) by lia.
    destruct (bin_bounds n K) as (Hb0 & Hb1 & Hb2); [apply Hn | lia |].
    pose proof (bin_positive n K ltac:(lia) HKn) as Hb.
    rewrite Gt. unfold SizeT.div.
    assert (E1 : SizeT.sub (n / K * (K - 1)) (n / K) = n / K * (K - 2)).
    { rewrite SizeTFacts.sub_exact; [lia | | nia].
      unfold SizeT.in_range in *; nia. }
    rewrite E1.
    assert (E2 : SizeT.sub (n / K * (K - 2)) 1 = n / K * (K - 2) - 1).
    { apply SizeTFacts.sub_exact; [| nia].
      unfold SizeT.in_range in *; nia. }
    rewrite E2.
    rewrite cols_prefix by (fold n; nia).
    reflexivity.
Qed.

Lemma staging_fails {A} (K : Z) (source : list A) :
  let n := Arma.n_cols source in
  SizeT.in_range n -> 2 < K -> SizeT.in_range K -> n < K ->
  snd (InitKFoldCVMat K source) = Err IndexOutOfBounds.
Proof.
  intros n Hn HK2 HK Hlt.
  unfold InitKFoldCVMat. cbn [snd]. fold n.
  destruct (K =? 2) eqn:EK; [apply Z.eqb_eq in EK; lia |].
  unfold SizeT.div.
  rewrite (Z.div_small n K) by (unfold SizeT.in_range in Hn; lia).
  assert (E : SizeT.sub (SizeT.sub (SizeT.mul 0 (SizeT.sub K 1)) 0) 1
              = SizeT.modulus - 1).
  { unfold SizeT.mul. rewrite Z.mul_0_l. reflexivity. }
  rewrite E.
  rewrite cols_past_the_end; [reflexivity |].
  fold n. unfold SizeT.in_range in Hn. lia.
Qed.

Lemma staged_n_cols {A} (source : list A) (d : Z) :
  0 <= d <= Arma.n_cols source ->
  Arma.n_cols (source ++ firstn (Z.to_nat d) source) = Arma.n_cols source + d.
Proof.
  unfold Arma.n_cols. intros H.
  rewrite length_app, length_firstn, Nat2Z.inj_add, Nat2Z.inj_min.
  rewrite Z2Nat.id by lia. lia.
Qed.

(** The duplicated prefix is never longer than the buffer. *)
Lemma duplicate_fits K n :
  0 <= n -> 2 <= K -> K = 2 \/ K <= n -> 0 <= n / K * (K - 2) <= n.
Proof.
  intros Hn HK Hc.
  destruct (bin_bounds n K) as (Hb0 & Hb1 & Hb2); [exact Hn | lia |].
  nia.
Qed.

Lemma firstn_In {A} (n : nat) (l : list A) (x : A) :
  In x (firstn n l) -> In x l.
Proof.
  intros H. rewrite <- (firstn_skipn n l). apply in_or_app. now left.
Qed.

Lemma In_window_cols (first len j : Z) :
  In j (window_cols first len) <-> first <= j < first + len.
Proof.
  unfold window_cols. rewrite in_map_iff. split.
  - intros (d & <- & Hd). apply in_seq in Hd. lia.
  - intros H. exists (Z.to_nat (j - first)). split; [lia |].
    apply in_seq. lia.
Qed.

(** [orig_col] reads the staged buffer back: staged column [j] is the
    original column [orig_col n j]. *)
Lemma staged_column {A} (source : list A) (d j : Z) :
  let n := Arma.n_cols source in
  0 <= d <= n -> 0 <= j < n + d ->
  nth_error (source ++ firstn (Z.to_nat d) source) (Z.to_nat j)
    = nth_error source (Z.to_nat (orig_col n j)).
Proof.
  intros n Hd Hj. unfold orig_col. unfold Arma.n_cols in n.
  destruct (Z.ltb_spec j n) as [Hlt | Hge].
  - apply nth_error_app1. lia.
  - rewrite nth_error_app2 by lia.
    rewrite nth_error_firstn.
    replace (Z.to_nat j - length source)%nat with (Z.to_nat (j - n)) by lia.
    destruct (Nat.ltb_spec (Z.to_nat (j - n)) (Z.to_nat d)) as [| Hc];
      [reflexivity | lia].
Qed.

(** ** Fold geometry *)

(** C2. For every sample count [n] and every fold count [K >= 2] (both
    [size_t] values), the geometry that [InitKFoldCVMat] computes is
    [binSize = floor (n / K)], [trainingSubsetSize = binSize * (K - 1)] and
    [lastBinSize = n - (K - 1) * binSize], in exact integers; and when
    [n >= K], [binSize * (K - 1) + lastBinSize = n] and
    [1 <= lastBinSize <= n - binSize * (K - 2)]. *)
Theorem fold_geometry {A} (K : Z) (source : list A) :
  let n := Arma.n_cols source in
  let g := fst (InitKFoldCVMat K source) in
  SizeT.in_range n -> SizeT.in_range K -> 2 <= K ->
  g_binSize g = n / K /\
  g_trainingSubsetSize g = g_binSize g * (K - 1) /\
  g_lastBinSize g = n - (K - 1) * g_binSize g /\
  (K <= n ->
   g_binSize g * (K - 1) + g_lastBinSize g = n /\
   1 <= g_lastBinSize g <= n - g_binSize g * (K - 2)).
Proof.
  intros n g Hn HK H2. subst g.
  rewrite (geometry_exact K source Hn ltac:(lia) HK). cbv zeta. cbn.
  fold n. split; [reflexivity |]. split; [reflexivity |].
  split; [reflexivity |]. intros Hle. split; [| split].
  - lia.
  - destruct (bin_bounds n K) as (Hb0 & Hb1 & Hb2); [apply Hn | lia |]. nia.
  - pose proof (bin_positive n K ltac:(lia) Hle). nia.
Qed.

(** ** Staged buffers *)

(** C3 (amended). For a buffer of [n] columns and [K >= 2] folds: when
    [K = 2] the staged buffer is the original one; when [K > 2] and
    [n >= K] it is the original buffer followed by a second copy of its
    first [trainingSubsetSize - binSize] columns.  In both cases it has
    [n + (trainingSubsetSize - binSize)] columns, and whatever holds of
    every original column (its element type, its row count) holds of every
    staged column. *)
Theorem staged_buffer_layout {A} (K : Z) (source : list A) :
  let n := Arma.n_cols source in
  let g := fst (InitKFoldCVMat K source) in
  let extra := g_trainingSubsetSize g - g_binSize g in
  SizeT.in_range n -> SizeT.in_range K -> 2 <= K ->
  (K = 2 -> snd (InitKFoldCVMat K source) = Ok source) /\
  (2 < K -> K <= n ->
   snd (InitKFoldCVMat K source)
     = Ok (source ++ firstn (Z.to_nat extra) source)) /\
  (forall staged, snd (InitKFoldCVMat K source) = Ok staged ->
     Arma.n_cols staged = n + extra /\
     forall P : A -> Prop, Forall P source -> Forall P staged).
Proof.
  intros n g extra Hn HK H2.
  assert (Ex : extra = n / K * (K - 2)).
  { subst extra g.
    rewrite (geometry_exact K source Hn ltac:(lia) HK). cbn. fold n. lia. }
  assert (Both : K = 2 \/ K <= n ->
            snd (InitKFoldCVMat K source)
              = Ok (source ++ firstn (Z.to_nat extra) source)).
  { intros Hc. rewrite Ex. now apply staging_exact. }
  split; [| split].
  - intros ->. rewrite Both by now left.
    rewrite Ex. replace (n / 2 * (2 - 2)) with 0 by lia.
    cbn [Z.to_nat firstn]. now rewrite app_nil_r.
  - intros _ Hle. apply Both. now right.
  - intros staged E.
    assert (Hc : K = 2 \/ K <= n).
    { destruct (Z.eq_dec K 2) as [| N]; [now left |].
      destruct (Z_le_gt_dec K n) as [| Hgt]; [now right |].
      rewrite staging_fails in E by (auto; lia). discriminate E. }
    rewrite (Both Hc) in E. injection E as <-. split.
    + apply staged_n_cols. rewrite Ex.
      apply duplicate_fits; [apply Hn | exact H2 | exact Hc].
    + intros P HP. apply Forall_app. split; [exact HP |].
      apply Forall_forall. intros x Hx.
      apply (proj1 (Forall_forall P source) HP).
      eapply firstn_In; exact Hx.
Qed.

(** ** The harness *)

Section HarnessFacts.

Variables Col Lab Wt : Type.
Variable MLAlgorithm : Type.
Variable Args : Type.
Variable Train : list Col -> list Lab -> Args -> result MLAlgorithm.
Variable TrainWeighted :
  list Col -> list Lab -> list Wt -> Args -> result MLAlgorithm.
Variable MetricEvaluate : MLAlgorithm -> list Col -> list Lab -> result Q.
Variable SupportsWeights : bool.

Implicit Types h : KFoldCV Col Lab Wt MLAlgorithm.

Lemma rbind_Ok {A B} (r : result A) (f : A -> result B) (b : B) :
  rbind r f = Ok b -> exists a, r = Ok a /\ f a = Ok b.
Proof. destruct r as [a | e]; cbn; [eauto | discriminate]. Qed.

Lemma init_staged {A} (K : Z) (source : list A) (n : Z) (g : Geometry)
  (d : result (list A)) (staged : list A) :
  Arma.n_cols source = n -> SizeT.in_range n -> 2 <= K -> SizeT.in_range K ->
  InitKFoldCVMat K source = (g, d) -> d = Ok staged ->
  (K = 2 \/ K <= n) /\
  g = mkGeometry (n / K) (n / K * (K - 1)) (n - (K - 1) * (n / K)) /\
  staged = source ++ firstn (Z.to_nat (n / K * (K - 2))) source.
Proof.
  intros En Hn HK2 HK EI Ed. subst n d.
  pose proof (geometry_exact K source Hn ltac:(lia) HK) as G.
  rewrite EI in G. cbn [fst] in G. cbv zeta in G.
  destruct (Z.eq_dec K 2) as [E2 | N2];
    [| destruct (Z_le_gt_dec K (Arma.n_cols source)) as [Hle | Hgt]].
  - pose proof (staging_exact K source Hn HK2 HK (or_introl E2)) as S.
    rewrite EI in S. cbn [snd] in S. injection S as S. auto.
  - pose proof (staging_exact K source Hn HK2 HK (or_intror Hle)) as S.
    rewrite EI in S. cbn [snd] in S. injection S as S. auto.
  - pose proof (staging_fails K source Hn ltac:(lia) HK ltac:(lia)) as S.
    rewrite EI in S. cbn [snd] in S. discriminate S.
Qed.

Lemma KFoldCV_new_staged (K : Z) (X : list Col) (Y : list Lab) h :
  SizeT.in_range K -> SizeT.in_range (Arma.n_cols X) ->
  KFoldCV_new MLAlgorithm K X Y = Ok h ->
  StagedFrom K X Y None h /\ modelPtr h = None.
Proof.
  intros HK Hn. unfold KFoldCV_new.
  destruct (K <? 2) eqn:E2; [discriminate |]. apply Z.ltb_ge in E2.
  unfold AssertDataConsistency.
  destruct (Arma.n_cols X =? Arma.n_cols Y) eqn:EXY; [| discriminate].
  apply Z.eqb_eq in EXY. cbn [rbind].
  destruct (InitKFoldCVMat K X) as [gx dx] eqn:EX.
  destruct dx as [sx | ex]; [| discriminate]. cbn [rbind].
  destruct (InitKFoldCVMat K Y) as [gy dy] eqn:EY.
  destruct dy as [sy | ey]; [| discriminate]. cbn [rbind].
  intros Eh. injection Eh as Eh. subst h.
  destruct (init_staged K X _ gx _ sx eq_refl Hn E2 HK EX eq_refl)
    as (Hc & _ & Sx).
  destruct (init_staged K Y (Arma.n_cols X) gy _ sy
              (eq_sym EXY) Hn E2 HK EY eq_refl) as (_ & Gy & Sy).
  subst gy. split; [| reflexivity].
  constructor; cbn; auto.
Qed.

Lemma Construct_staged (K : Z) (X : list Col) (Y : list Lab)
  (W : option (list Wt)) h :
  SizeT.in_range K -> SizeT.in_range (Arma.n_cols X) ->
  Construct MLAlgorithm K X Y W = Ok h ->
  StagedFrom K X Y W h /\ modelPtr h = None.
Proof.
  intros HK Hn. destruct W as [w |]; cbn [Construct];
    [| now apply KFoldCV_new_staged].
  unfold KFoldCV_new_weights. intros E.
  apply rbind_Ok in E. destruct E as (h0 & E0 & E).
  apply KFoldCV_new_staged in E0; [| assumption | assumption].
  destruct E0 as (S0 & M0). destruct S0 as [? Hfolds ? ? ? ? ? ? ? ?].
  unfold AssertWeightsConsistency in E.
  destruct (Arma.n_cols w =? Arma.n_cols X) eqn:EW; [| discriminate].
  apply Z.eqb_eq in EW. cbn [rbind] in E.
  destruct (InitKFoldCVMat K w) as [gw dw] eqn:EI.
  destruct dw as [sw | ew]; [| discriminate]. cbn [rbind] in E.
  injection E as E. subst h.
  destruct (init_staged K w (Arma.n_cols X) gw _ sw EW Hn Hfolds HK EI eq_refl)
    as (_ & Gw & Sw).
  subst gw. split; [| exact M0].
  constructor; cbn; auto.
Qed.


Lemma KFoldCV_new_members K (X : list Col) (Y : list Lab) h :
  KFoldCV_new MLAlgorithm K X Y = Ok h ->
  2 <= K /\ k h = K /\ modelPtr h = None.
Proof.
  unfold KFoldCV_new.
  destruct (Z.ltb_spec K 2) as [| H2]; [discriminate |].
  destruct (AssertDataConsistency X Y); [| discriminate]. cbn [rbind].
  destruct (InitKFoldCVMat K X) as [gx [sx | ex]]; [| discriminate].
  cbn [rbind].
  destruct (InitKFoldCVMat K Y) as [gy [sy | ey]]; [| discriminate].
  cbn [rbind]. intros E. injection E as <-. cbn. auto.
Qed.

(** A fresh harness has the fold count it was given and no model. *)
Lemma Construct_members K (X : list Col) (Y : list Lab)
  (W : option (list Wt)) h :
  Construct MLAlgorithm K X Y W = Ok h ->
  2 <= K /\ k h = K /\ modelPtr h = None.
Proof.
  destruct W as [w |]; cbn [Construct]; [| apply KFoldCV_new_members].
  unfold KFoldCV_new_weights. intros E.
  apply rbind_Ok in E. destruct E as (h1 & E1 & E).
  apply KFoldCV_new_members in E1. destruct E1 as (H2 & Hk & Hm).
  destruct (AssertWeightsConsistency X w); [| discriminate].
  cbn [rbind] in E.
  destruct (InitKFoldCVMat K w) as [gw [sw | ew]]; [| discriminate].
  cbn [rbind] in E. injection E as <-. cbn. auto.
Qed.

(** *** A run only ever touches the model pointer *)

Lemma set_modelPtr_self h : set_modelPtr h (modelPtr h) = h.
Proof. now destruct h. Qed.

Lemma StagedFrom_set_modelPtr K X Y W h p :
  StagedFrom K X Y W h -> StagedFrom K X Y W (set_modelPtr h p).
Proof. intros [? ? ? ? ? ? ? ? ? ?]. constructor; cbn; auto. Qed.

Lemma TrainingCall_set_modelPtr h p args i :
  TrainingCall Train TrainWeighted SupportsWeights (set_modelPtr h p) args i
  = TrainingCall Train TrainWeighted SupportsWeights h args i.
Proof. reflexivity. Qed.

(** The loop of either overload, as [Evaluate] runs it. *)
Lemma Evaluate_unfold h args :
  Evaluate Train TrainWeighted MetricEvaluate SupportsWeights h args =
  RunFolds MetricEvaluate
    (TrainingCall Train TrainWeighted SupportsWeights) h args.
Proof.
  unfold Evaluate, TrainAndEvaluate, TrainAndEvaluateWeights, RunFolds.
  unfold TrainingCall.
  destruct SupportsWeights.
  - reflexivity.
  - reflexivity.
Qed.

(** *** The fold loop *)

Local Notation "'train'" := (TrainingCall Train TrainWeighted SupportsWeights).
Local Notation "'score'" := (Score MetricEvaluate).
Local Notation "'loop'" := (FoldLoop MetricEvaluate train).

Lemma set_elem_middle (pre rest : list Q) (x v : Q) :
  Arma.set_elem (pre ++ x :: rest) (length pre) v = pre ++ v :: rest.
Proof.
  induction pre as [| p pre IH]; cbn.
  - reflexivity.
  - now rewrite IH.
Qed.

(** One iteration of the loop that does not fail. *)
Lemma loop_step args i idx ev h r h' :
  loop args (i :: idx) ev h = (r, h') ->
  (exists e, r = Err e /\ h' = h /\
     (train h args i = Err e \/
      exists m, train h args i = Ok m /\ score h m i = Err e)) \/
  (exists m s, train h args i = Ok m /\ score h m i = Ok s /\
     loop args idx (Arma.set_elem ev (Z.to_nat i) s)
       (if i =? SizeT.sub (k h) 1 then set_modelPtr h (Some m) else h)
     = (r, h')).
Proof.
  cbn [FoldLoop].
  destruct (train h args i) as [m | e] eqn:Et.
  - destruct (score h m i) as [s | e] eqn:Es.
    + intros E. right. exists m, s. auto.
    + intros E. injection E as <- <-. left. exists e. eauto 6.
  - intros E. injection E as <- <-. left. exists e. auto.
Qed.

(** Every fold of a completed loop was trained and scored, and the scores
    fill the vector in fold order. *)
Lemma loop_scores args n : forall a pre rest h ev' h',
  length pre = a -> length rest = n ->
  loop args (map Z.of_nat (seq a n)) (pre ++ rest) h = (Ok ev', h') ->
  exists scores,
    Forall2 (fun i s => exists m, train h args i = Ok m /\ score h m i = Ok s)
            (map Z.of_nat (seq a n)) scores /\
    ev' = pre ++ scores.
Proof.
  induction n as [| n IH]; intros a pre rest h ev' h' Ha Hr E.
  - destruct rest; [| discriminate]. cbn in E. injection E as <- <-.
    exists []. split; [constructor | reflexivity].
  - destruct rest as [| r0 rest]; [discriminate |]. injection Hr as Hr.
    subst a. cbn [seq map] in E |- *.
    apply loop_step in E.
    destruct E as [(e & Ee & _) | (m & s & Et & Es & E)]; [discriminate |].
    rewrite Nat2Z.id, set_elem_middle in E.
    replace (pre ++ s :: rest) with ((pre ++ [s]) ++ rest) in E
      by (now rewrite <- app_assoc).
    apply IH in E; [| rewrite length_app; cbn; lia | exact Hr].
    destruct E as (scores & F & ->).
    exists (s :: scores). split.
    + constructor; [eauto |].
      destruct (Z.of_nat (length pre) =? SizeT.sub (k h) 1); exact F.
    + now rewrite <- app_assoc.
Qed.

(** A loop that fails leaves the harness as it found it: the model pointer
    is written in the iteration of index [k - 1], the last one, after its
    score. *)
Lemma loop_failure args n : forall a ev h e h',
  SizeT.in_range (k h) -> Z.of_nat (a + n) = k h ->
  loop args (map Z.of_nat (seq a n)) ev h = (Err e, h') ->
  h' = h.
Proof.
  induction n as [| n IH]; intros a ev h e h' Hk Hlen E.
  - discriminate E.
  - cbn [seq map] in E. apply loop_step in E.
    destruct E as [(e' & _ & Eh & _) | (m & s & _ & _ & E)]; [exact Eh |].
    destruct n as [| n'].
    + discriminate E.
    + assert (Hi : (Z.of_nat a =? SizeT.sub (k h) 1) = false).
      { apply Z.eqb_neq. rewrite SizeTFacts.sub_exact by (auto; lia). lia. }
      rewrite Hi in E.
      apply IH in E; [exact E | exact Hk | lia].
Qed.

(** A loop that completes has stored the model of the last fold. *)
Lemma loop_success args n : forall a ev h ev' h',
  SizeT.in_range (k h) -> Z.of_nat (a + S n) = k h ->
  loop args (map Z.of_nat (seq a (S n))) ev h = (Ok ev', h') ->
  exists m, train h args (k h - 1) = Ok m /\ h' = set_modelPtr h (Some m).
Proof.
  induction n as [| n IH]; intros a ev h ev' h' Hk Hlen E.
  - cbn [seq map] in E. apply loop_step in E.
    destruct E as [(e & Ee & _) | (m & s & Et & _ & E)]; [discriminate |].
    assert (Hi : Z.of_nat a = k h - 1) by lia.
    rewrite Hi, SizeTFacts.sub_exact, Z.eqb_refl in E by (auto; lia).
    cbn in E. injection E as _ <-. rewrite <- Hi. eauto.
  - remember (S n) as n1. cbn [seq map] in E. apply loop_step in E.
    destruct E as [(e & Ee & _) | (m & s & _ & _ & E)]; [discriminate |].
    assert (Hi : (Z.of_nat a =? SizeT.sub (k h) 1) = false).
    { apply Z.eqb_neq. rewrite SizeTFacts.sub_exact by (auto; lia). lia. }
    rewrite Hi in E. subst n1.
    apply IH in E; [exact E | exact Hk | lia].
Qed.

(** *** Whole runs *)

Lemma mean_Ok (v : list Q) (s : Q) :
  Arma.mean v = Ok s ->
  v <> [] /\ s = (Arma.accu v / inject_Z (Z.of_nat (length v)))%Q.
Proof.
  destruct v as [| x v]; [discriminate |].
  cbn [Arma.mean]. intros E. injection E as <-.
  split; [discriminate | reflexivity].
Qed.

Lemma fold_indices_length K : length (fold_indices K) = Z.to_nat K.
Proof. unfold fold_indices. now rewrite length_map, length_seq. Qed.

Lemma Evaluate_scores h args s h' :
  Evaluate Train TrainWeighted MetricEvaluate SupportsWeights h args
    = (Ok s, h') ->
  exists scores,
    Forall2 (fun i s_i => exists m, train h args i = Ok m /\
                                    score h m i = Ok s_i)
            (fold_indices (k h)) scores /\
    1 <= k h /\
    length scores = Z.to_nat (k h) /\
    s = (Arma.accu scores / inject_Z (k h))%Q.
Proof.
  rewrite Evaluate_unfold. unfold RunFolds.
  destruct (loop args (fold_indices (k h)) _ h) as [[ev' | e] h''] eqn:E;
    [| discriminate].
  intros Em. injection Em as Em <-.
  unfold fold_indices in E.
  change (repeat 0%Q (Z.to_nat (k h)))
    with ([] ++ repeat 0%Q (Z.to_nat (k h))) in E.
  apply loop_scores in E; [| reflexivity | apply repeat_length].
  destruct E as (scores & F & ->). cbn [app] in Em.
  apply mean_Ok in Em. destruct Em as (Hne & ->).
  pose proof (Forall2_length F) as L.
  rewrite length_map, length_seq in L.
  assert (Hk : 1 <= k h).
  { destruct scores; [contradiction | cbn in L; lia]. }
  exists scores. repeat split; auto.
  rewrite <- L, Z2Nat.id by lia. reflexivity.
Qed.

Lemma Evaluate_failure h args e h' :
  SizeT.in_range (k h) ->
  Evaluate Train TrainWeighted MetricEvaluate SupportsWeights h args
    = (Err e, h') ->
  h' = h.
Proof.
  intros Hk E.
  destruct (Evaluate Train TrainWeighted MetricEvaluate SupportsWeights
              h args) as [r hh] eqn:EE.
  injection E as -> ->.
  rewrite Evaluate_unfold in EE. unfold RunFolds in EE.
  destruct (loop args (fold_indices (k h)) _ h) as [[ev' | e'] h''] eqn:E.
  - injection EE as Em ->.
    destruct (Z.to_nat (k h)) as [| n] eqn:En.
    + unfold fold_indices in E. rewrite En in E. cbn in E.
      now injection E as _ <-.
    + unfold fold_indices in E. rewrite En in E.
      change (repeat 0%Q (S n)) with ([] ++ repeat 0%Q (S n)) in E.
      apply loop_scores in E; [| reflexivity | apply repeat_length].
      destruct E as (scores & F & ->).
      apply Forall2_length in F. rewrite length_map, length_seq in F.
      destruct scores; [discriminate F | discriminate Em].
  - injection EE as -> ->.
    unfold fold_indices in E.
    apply loop_failure in E; [exact E | exact Hk |].
    destruct Hk. cbn. lia.
Qed.

Lemma Evaluate_stores_model h args s h' :
  SizeT.in_range (k h) ->
  Evaluate Train TrainWeighted MetricEvaluate SupportsWeights h args
    = (Ok s, h') ->
  exists m, train h args (k h - 1) = Ok m /\ h' = set_modelPtr h (Some m).
Proof.
  intros Hk E.
  destruct (Evaluate_scores _ _ _ _ E) as (_ & _ & Hk1 & _).
  rewrite Evaluate_unfold in E. unfold RunFolds in E.
  destruct (loop args (fold_indices (k h)) _ h) as [[ev' | e'] h''] eqn:EL;
    [| discriminate].
  injection E as _ <-.
  unfold fold_indices in EL.
  destruct (Z.to_nat (k h)) as [| n] eqn:En; [lia |].
  apply loop_success in EL; [exact EL | exact Hk | lia].
Qed.

(** Whatever a run returns, it changes the model pointer at most. *)
Lemma Evaluate_state h args r h' :
  SizeT.in_range (k h) ->
  Evaluate Train TrainWeighted MetricEvaluate SupportsWeights h args
    = (r, h') ->
  h' = set_modelPtr h (modelPtr h').
Proof.
  intros Hk E. destruct r as [s | e].
  - apply Evaluate_stores_model in E; [| exact Hk].
    destruct E as (m & _ & ->). reflexivity.
  - apply Evaluate_failure in E; [| exact Hk]. subst h'.
    now rewrite set_modelPtr_self.
Qed.

Lemma Reachable_staged K X Y W h0 h :
  SizeT.in_range K ->
  StagedFrom K X Y W h0 ->
  Reachable Train TrainWeighted MetricEvaluate SupportsWeights h0 h ->
  StagedFrom K X Y W h.
Proof.
  intros HK S0 R. induction R as [| h args r h' R IH E]; [exact S0 |].
  apply Evaluate_state in E.
  - rewrite E. now apply StagedFrom_set_modelPtr.
  - destruct IH as [-> ? ? ? ? ? ? ? ? ?]. exact HK.
Qed.

(** *** Windows of a staged harness *)

Lemma windows_exact K X Y W h i :
  SizeT.in_range K -> SizeT.in_range (Arma.n_cols X) ->
  StagedFrom K X Y W h -> 0 <= i < K ->
  ValidationSubsetFirstCol h i
    = (if i =? 0 then trainingSubsetSize h else binSize h * (i - 1)) /\
  ValidationSubsetSize h i = (if i =? 0 then lastBinSize h else binSize h) /\
  TrainingSubsetFirstCol h i = binSize h * i /\
  TrainingSubsetSize h i
    = (if i =? k h - 1 then lastBinSize h + (k h - 2) * binSize h
       else trainingSubsetSize h).
Proof.
  intros HK Hn [Ek Hf He _ Eb Et El _ _ _] Hi.
  destruct (bin_bounds (Arma.n_cols X) K) as (Hb0 & Hb1 & Hb2);
    [apply Hn | lia |].
  unfold ValidationSubsetFirstCol, ValidationSubsetSize,
    TrainingSubsetFirstCol, TrainingSubsetSize.
  rewrite Ek, Eb, Et, El.
  set (n := Arma.n_cols X) in *. set (b := n / K) in *.
  assert (E1 : SizeT.sub K 1 = K - 1)
    by (apply SizeTFacts.sub_exact; [exact HK | lia]).
  assert (E2 : SizeT.sub K 2 = K - 2)
    by (apply SizeTFacts.sub_exact; [exact HK | lia]).
  rewrite E1, E2.
  repeat split.
  - destruct (i =? 0) eqn:E0; [reflexivity |]. apply Z.eqb_neq in E0.
    rewrite SizeTFacts.sub_exact
      by (unfold SizeT.in_range in *; lia).
    apply SizeTFacts.mul_exact with (c := n); try assumption; nia.
  - apply SizeTFacts.mul_exact with (c := n); try assumption; nia.
  - destruct (i =? K - 1); [| reflexivity].
    rewrite (SizeTFacts.mul_exact (K - 2) b n) by (try assumption; nia).
    apply SizeTFacts.add_exact with (c := n); try assumption; nia.
Qed.

(** Both windows of every fold lie inside a staged buffer. *)
Lemma windows_fit K X Y W h i :
  SizeT.in_range K -> SizeT.in_range (Arma.n_cols X) ->
  StagedFrom K X Y W h -> 0 <= i < K ->
  let staged_cols := Arma.n_cols X + Arma.n_cols X / K * (K - 2) in
  0 <= ValidationSubsetFirstCol h i /\ 0 <= ValidationSubsetSize h i /\
  ValidationSubsetFirstCol h i + ValidationSubsetSize h i <= Arma.n_cols X /\
  0 <= TrainingSubsetFirstCol h i /\ 0 <= TrainingSubsetSize h i /\
  TrainingSubsetFirstCol h i + TrainingSubsetSize h i <= staged_cols.
Proof.
  intros HK Hn S Hi.
  destruct (windows_exact K X Y W h i HK Hn S Hi) as (-> & -> & -> & ->).
  destruct S as [Ek Hf He _ Eb Et El _ _ _].
  rewrite Ek, Eb, Et, El.
  destruct (bin_bounds (Arma.n_cols X) K) as (Hb0 & Hb1 & Hb2);
    [apply Hn | lia |].
  set (n := Arma.n_cols X) in *. set (b := n / K) in *. cbv zeta.
  destruct (Z.eqb_spec i 0) as [E0 | N0];
    destruct (Z.eqb_spec i (K - 1)) as [E1 | N1];
    repeat split; nia.
Qed.

Lemma span_n_cols {A} (m : list A) (first len : Z) :
  0 <= first -> 0 <= len -> first + len <= Arma.n_cols m ->
  Arma.n_cols (Arma.span m first len) = len.
Proof.
  unfold Arma.n_cols, Arma.span. intros Hf Hl H.
  rewrite length_firstn, length_skipn. lia.
Qed.

Lemma colptr_view_inside {A} (m : list A) (first len : Z) :
  first + len <= Arma.n_cols m ->
  Arma.colptr_view m first len = Ok (Arma.span m first len).
Proof.
  intros H. unfold Arma.colptr_view.
  destruct (first + len <=? Arma.n_cols m) eqn:E; [reflexivity |].
  apply Z.leb_gt in E. lia.
Qed.

Lemma staged_buffers_cols K X Y W h :
  SizeT.in_range (Arma.n_cols X) -> StagedFrom K X Y W h ->
  let staged_cols := Arma.n_cols X + Arma.n_cols X / K * (K - 2) in
  Arma.n_cols (xs h) = staged_cols /\ Arma.n_cols (ys h) = staged_cols /\
  (weights h = [] \/ Arma.n_cols (weights h) = staged_cols).
Proof.
  intros Hn [Ek Hf He Ey _ _ _ Ex Eys Ew]. cbv zeta.
  pose proof (duplicate_fits K (Arma.n_cols X) ltac:(apply Hn) Hf He) as D.
  rewrite Ex, Eys.
  rewrite !staged_n_cols by (rewrite ?Ey; exact D).
  rewrite Ey. repeat split.
  destruct W as [w |].
  - destruct Ew as (Enw & ->). right.
    rewrite staged_n_cols by (rewrite Enw; exact D). now rewrite Enw.
  - now left.
Qed.

(** *** The claims about a constructed harness *)

Local Notation "'reachable'" :=
  (Reachable Train TrainWeighted MetricEvaluate SupportsWeights).

Lemma harness_staged K X Y W h0 h :
  SizeT.in_range K -> SizeT.in_range (Arma.n_cols X) ->
  Construct MLAlgorithm K X Y W = Ok h0 -> reachable h0 h ->
  StagedFrom K X Y W h.
Proof.
  intros HK Hn C R.
  apply Construct_staged in C; [| exact HK | exact Hn].
  eapply Reachable_staged; [exact HK | apply C | exact R].
Qed.

(** C4. In a harness built for [K] folds, the validation window of fold
    [i] starts at column [trainingSubsetSize] when [i = 0] and at column
    [binSize * (i - 1)] otherwise; it has [lastBinSize] columns when
    [i = 0] and [binSize] columns otherwise; and it is that span of the
    staged feature and label buffers. *)
Theorem validation_window K X Y W h0 h i :
  SizeT.in_range K -> SizeT.in_range (Arma.n_cols X) ->
  Construct MLAlgorithm K X Y W = Ok h0 -> reachable h0 h ->
  0 <= i < K ->
  let first := if i =? 0 then trainingSubsetSize h else binSize h * (i - 1) in
  let len := if i =? 0 then lastBinSize h else binSize h in
  ValidationSubsetFirstCol h i = first /\
  ValidationSubsetSize h i = len /\
  GetValidationSubset h (xs h) i = Ok (Arma.span (xs h) first len) /\
  GetValidationSubset h (ys h) i = Ok (Arma.span (ys h) first len) /\
  Arma.n_cols (Arma.span (xs h) first len) = len /\
  Arma.n_cols (Arma.span (ys h) first len) = len.
Proof.
  intros HK Hn C R Hi first len.
  pose proof (harness_staged K X Y W h0 h HK Hn C R) as S.
  destruct (windows_exact K X Y W h i HK Hn S Hi) as (Ef & El & _ & _).
  fold first in Ef. fold len in El.
  destruct (windows_fit K X Y W h i HK Hn S Hi) as (F0 & L0 & FL & _).
  rewrite ?Ef, ?El in F0, L0, FL.
  destruct (staged_buffers_cols K X Y W h Hn S) as (Nx & Ny & _).
  assert (D : 0 <= Arma.n_cols X / K * (K - 2)).
  { destruct S as [_ Hf He _ _ _ _ _ _ _].
    apply (duplicate_fits K (Arma.n_cols X)); [apply Hn | exact Hf | exact He]. }
  unfold GetValidationSubset. rewrite Ef, El.
  repeat split.
  - apply colptr_view_inside. lia.
  - apply colptr_view_inside. lia.
  - apply span_n_cols; lia.
  - apply span_n_cols; lia.
Qed.

(** C5. In a harness built for [K] folds, the training window of fold [i]
    starts at column [binSize * i]; it has [trainingSubsetSize] columns,
    except in the last fold ([i = K - 1]), where it has
    [lastBinSize + (K - 2) * binSize] columns; and it is that span of the
    staged feature and label buffers (and of the staged weights, when there
    are any). *)
Theorem training_window K X Y W h0 h i :
  SizeT.in_range K -> SizeT.in_range (Arma.n_cols X) ->
  Construct MLAlgorithm K X Y W = Ok h0 -> reachable h0 h ->
  0 <= i < K ->
  let first := binSize h * i in
  let len := if i =? K - 1 then lastBinSize h + (K - 2) * binSize h
             else trainingSubsetSize h in
  TrainingSubsetFirstCol h i = first /\
  TrainingSubsetSize h i = len /\
  GetTrainingSubset h (xs h) i = Ok (Arma.span (xs h) first len) /\
  GetTrainingSubset h (ys h) i = Ok (Arma.span (ys h) first len) /\
  (weights h <> [] ->
   GetTrainingSubset h (weights h) i = Ok (Arma.span (weights h) first len)) /\
  Arma.n_cols (Arma.span (xs h) first len) = len /\
  Arma.n_cols (Arma.span (ys h) first len) = len.
Proof.
  intros HK Hn C R Hi first len.
  pose proof (harness_staged K X Y W h0 h HK Hn C R) as S.
  destruct (windows_exact K X Y W h i HK Hn S Hi) as (_ & _ & Ef & El).
  assert (Ek : k h = K) by now destruct S.
  rewrite Ek in El. fold first in Ef. fold len in El.
  destruct (windows_fit K X Y W h i HK Hn S Hi) as (_ & _ & _ & F0 & L0 & FL).
  rewrite ?Ef, ?El in F0, L0, FL.
  destruct (staged_buffers_cols K X Y W h Hn S) as (Nx & Ny & Nw).
  unfold GetTrainingSubset. rewrite Ef, El.
  repeat split.
  - apply colptr_view_inside. lia.
  - apply colptr_view_inside. lia.
  - intros Hw. destruct Nw as [Nw | Nw]; [contradiction |].
    apply colptr_view_inside. lia.
  - apply span_n_cols; lia.
  - apply span_n_cols; lia.
Qed.

(** How many samples a fold uses.  The training and validation windows of
    the first fold and of the last fold have [n] columns together; those of
    any other fold have only [K * binSize = n - n mod K]: [GetTrainingSubset]
    gives such a fold [trainingSubsetSize] columns, although the comment
    there and the branch for the last fold are about folds that do not hold
    [binSize] points. *)
Lemma fold_window_lengths K X Y W h0 h i :
  SizeT.in_range K -> SizeT.in_range (Arma.n_cols X) ->
  Construct MLAlgorithm K X Y W = Ok h0 -> reachable h0 h ->
  0 <= i < K ->
  let n := Arma.n_cols X in
  TrainingSubsetSize h i + ValidationSubsetSize h i
    = (if (i =? 0) || (i =? K - 1) then n else n - n mod K) /\
  n - n mod K = K * binSize h.
Proof.
  intros HK Hn C R Hi n.
  pose proof (harness_staged K X Y W h0 h HK Hn C R) as S.
  destruct (windows_exact K X Y W h i HK Hn S Hi) as (_ & -> & _ & ->).
  destruct S as [Ek Hf He _ Eb Et El _ _ _].
  rewrite Ek, Eb, Et, El. fold n.
  rewrite (Z.mod_eq n K) by lia.
  destruct (Z.eqb_spec i 0) as [E0 | N0];
    destruct (Z.eqb_spec i (K - 1)) as [E1 | N1]; cbn [orb]; split; lia.
Qed.

Lemma In_ValidationColumns K X Y W h i c :
  SizeT.in_range K -> SizeT.in_range (Arma.n_cols X) ->
  StagedFrom K X Y W h -> 0 <= i < K ->
  let n := Arma.n_cols X in
  In c (ValidationColumns h n i) <->
  (if i =? 0 then n / K * (K - 1) <= c < n
   else n / K * (i - 1) <= c < n / K * i).
Proof.
  intros HK Hn S Hi n.
  destruct (windows_exact K X Y W h i HK Hn S Hi) as (Ef & El & _ & _).
  destruct (windows_fit K X Y W h i HK Hn S Hi) as (F0 & L0 & FL & _).
  unfold ValidationColumns. rewrite in_map_iff.
  destruct S as [Ek Hf He _ Eb Et El' _ _ _].
  rewrite Ef, El in *. rewrite Eb, Et, El' in *. fold n in F0, L0, FL |- *.
  split.
  - intros (j & <- & Hj). apply In_window_cols in Hj.
    unfold orig_col. destruct (Z.ltb_spec j n) as [| Hge]; [| lia].
    destruct (i =? 0); lia.
  - intros H. exists c. split.
    + unfold orig_col. destruct (Z.ltb_spec c n) as [| Hge]; [reflexivity |].
      destruct (i =? 0); lia.
    + apply In_window_cols. destruct (i =? 0); lia.
Qed.

(** C8. Whatever the buffers, construction with [K < 2] fails with the
    invalid-argument condition; no harness is returned, and neither the
    validator nor the staging is reached. *)
Theorem construction_rejects_small_k K (X : list Col) (Y : list Lab)
  (W : option (list Wt)) :
  K < 2 ->
  Construct MLAlgorithm K X Y W = Err InvalidArgument.
Proof.
  intros H.
  destruct W as [w |]; cbn [Construct]; unfold KFoldCV_new_weights;
    unfold KFoldCV_new;
    destruct (Z.ltb_spec K 2) as [| Hge]; try reflexivity; lia.
Qed.

Lemma Reachable_k h0 h :
  SizeT.in_range (k h0) -> reachable h0 h -> k h = k h0.
Proof.
  intros Hk R. induction R as [| h args r h' R IH E]; [reflexivity |].
  apply Evaluate_state in E; [| now rewrite IH].
  rewrite E. exact IH.
Qed.

(** Once a model is retained, every later state retains one. *)
Lemma Reachable_keeps_a_model h0 h :
  SizeT.in_range (k h0) -> reachable h0 h ->
  modelPtr h0 <> None -> modelPtr h <> None.
Proof.
  intros Hk R H0. induction R as [| h args r h' R IH E]; [exact H0 |].
  assert (Hkh : SizeT.in_range (k h))
    by (rewrite (Reachable_k h0 h Hk R); exact Hk).
  destruct r as [s | e].
  - apply Evaluate_stores_model in E; [| exact Hkh].
    destruct E as (m & _ & ->). discriminate.
  - apply Evaluate_failure in E; [| exact Hkh]. now subst h'.
Qed.

Lemma NoRunCompleted_fresh h0 h :
  SizeT.in_range (k h0) ->
  NoRunCompleted Train TrainWeighted MetricEvaluate SupportsWeights h0 h ->
  h = h0.
Proof.
  intros Hk N. induction N as [| h args e h' N IH Ev]; [reflexivity |].
  subst h. apply Evaluate_failure in Ev; [exact Ev | exact Hk].
Qed.

(** C9. On a constructed harness on which no [Evaluate] call has completed
    yet (calls that failed may have been made), [Model()] fails with the
    logic-error condition.  When an [Evaluate] call completes, in whatever
    state the harness was, [Model()] returns the model that the call
    retained, the one trained on the last fold; and it keeps returning a
    model in every later state. *)
Theorem Model_before_and_after_run K X Y W h0 :
  SizeT.in_range K ->
  Construct MLAlgorithm K X Y W = Ok h0 ->
  (forall h,
     NoRunCompleted Train TrainWeighted MetricEvaluate SupportsWeights h0 h ->
     Model h = Err LogicError) /\
  (forall h args s h',
     reachable h0 h ->
     Evaluate Train TrainWeighted MetricEvaluate SupportsWeights h args
       = (Ok s, h') ->
     (exists m, train h args (K - 1) = Ok m /\ modelPtr h' = Some m /\
                Model h' = Ok m) /\
     (forall h'', reachable h' h'' -> exists m', Model h'' = Ok m')).
Proof.
  intros HK C.
  destruct (Construct_members K X Y W h0 C) as (_ & Hk0 & Hm0).
  assert (Hr0 : SizeT.in_range (k h0)) by now rewrite Hk0.
  split.
  - intros h N. apply NoRunCompleted_fresh in N; [| exact Hr0]. subst h.
    unfold Model. now rewrite Hm0.
  - intros h args s h' R Ev.
    pose proof (Reachable_k h0 h Hr0 R) as Hkh.
    apply Evaluate_stores_model in Ev; [| now rewrite Hkh].
    destruct Ev as (m & Et & ->). rewrite Hkh, Hk0 in Et. split.
    + exists m. repeat split. exact Et.
    + intros h'' R'.
      apply Reachable_keeps_a_model in R';
        [| cbn; now rewrite Hkh | discriminate].
      unfold Model. destruct (modelPtr h'') as [m' |]; [eauto | contradiction].
Qed.

Lemma Forall2_pick {A B} (R : A -> B -> Prop) (l : list A) (l' : list B)
  (x : A) :
  Forall2 R l l' -> In x l -> exists y, R x y.
Proof.
  induction 1 as [| a b l l' Hab _ IH]; intros Hin; [contradiction |].
  destruct Hin as [<- | Hin]; eauto.
Qed.

Lemma In_fold_indices K i : In i (fold_indices K) <-> 0 <= i < K.
Proof.
  unfold fold_indices. rewrite in_map_iff. split.
  - intros (j & <- & Hj). apply in_seq in Hj. lia.
  - intros H. exists (Z.to_nat i). split; [lia |]. apply in_seq. lia.
Qed.

(** C10. When an [Evaluate] call fails (the training operation or the
    metric raised in some fold), the harness is exactly as it was before
    the call: the same retained model, or still none, and [Model()] answers
    as before.  The model pointer changes only in a call that computed the
    score of the last fold. *)
Theorem failed_run_keeps_model h args r h' :
  SizeT.in_range (k h) ->
  Evaluate Train TrainWeighted MetricEvaluate SupportsWeights h args
    = (r, h') ->
  (forall e, r = Err e ->
     h' = h /\ modelPtr h' = modelPtr h /\ Model h' = Model h) /\
  (modelPtr h' <> modelPtr h ->
     exists m sc, train h args (k h - 1) = Ok m /\
                  score h m (k h - 1) = Ok sc /\
                  modelPtr h' = Some m).
Proof.
  intros Hk E. split.
  - intros e ->. apply Evaluate_failure in E; [| exact Hk].
    subst h'. auto.
  - intros Hchg. destruct r as [s | e].
    + destruct (Evaluate_scores _ _ _ _ E) as (scores & F & Hk1 & _).
      apply Evaluate_stores_model in E; [| exact Hk].
      destruct E as (m & Et & ->).
      assert (Hin : In (k h - 1) (fold_indices (k h)))
        by (apply In_fold_indices; lia).
      destruct (Forall2_pick _ _ _ _ F Hin) as (sc & m' & Et' & Es).
      rewrite Et in Et'. injection Et' as <-.
      exists m, sc. auto.
    + apply Evaluate_failure in E; [| exact Hk]. subst h'. contradiction.
Qed.

(** A loop whose folds can all be trained and scored completes. *)
Lemma loop_completes args n : forall a ev h,
  (forall i, In i (map Z.of_nat (seq a n)) ->
     exists m s, train h args i = Ok m /\ score h m i = Ok s) ->
  exists ev' h', loop args (map Z.of_nat (seq a n)) ev h = (Ok ev', h').
Proof.
  induction n as [| n IH]; intros a ev h H.
  - cbn. eauto.
  - cbn [seq map FoldLoop].
    destruct (H (Z.of_nat a)) as (m & s & Et & Es); [now left |].
    rewrite Et, Es.
    apply IH. intros i Hi.
    destruct (H i) as (m' & s' & Et' & Es'); [now right |].
    exists m', s'.
    destruct (Z.of_nat a =? SizeT.sub (k h) 1); auto.
Qed.

(** [Evaluate] returns a score whenever every fold can be trained and
    scored. *)
Lemma Evaluate_completes h args :
  1 <= k h ->
  (forall i, 0 <= i < k h ->
     exists m s, train h args i = Ok m /\ score h m i = Ok s) ->
  exists s h',
    Evaluate Train TrainWeighted MetricEvaluate SupportsWeights h args
      = (Ok s, h').
Proof.
  intros Hk H.
  rewrite Evaluate_unfold. unfold RunFolds.
  destruct (loop_completes args (Z.to_nat (k h)) 0
              (repeat 0%Q (Z.to_nat (k h))) h) as (ev' & h' & E).
  { intros i Hi. apply H. now apply In_fold_indices. }
  unfold fold_indices. rewrite E.
  change (repeat 0%Q (Z.to_nat (k h)))
    with ([] ++ repeat 0%Q (Z.to_nat (k h))) in E.
  apply loop_scores in E; [| reflexivity | apply repeat_length].
  destruct E as (scores & F & ->).
  apply Forall2_length in F. rewrite length_map, length_seq in F.
  destruct scores as [| x scores]; [cbn in F; lia |].
  cbn [app Arma.mean]. eauto.
Qed.

(** C1. A completed [Evaluate] call returns the plain arithmetic mean of the
    [k] scores of the folds: the score of fold [i] is the metric, on the
    validation window of fold [i], of the model trained on the training
    window of fold [i]; they are summed and the sum is divided by [k],
    whatever the sizes of the validation windows. *)
Theorem Evaluate_returns_unweighted_mean h args s h' :
  Evaluate Train TrainWeighted MetricEvaluate SupportsWeights h args
    = (Ok s, h') ->
  exists scores,
    Forall2 (fun i s_i => exists m, train h args i = Ok m /\
                                    score h m i = Ok s_i)
            (fold_indices (k h)) scores /\
    length scores = Z.to_nat (k h) /\
    1 <= k h /\
    s = (Arma.accu scores / inject_Z (k h))%Q.
Proof.
  intros E.
  destruct (Evaluate_scores _ _ _ _ E) as (scores & F & Hk & L & Es).
  exists scores. auto.
Qed.

(** Scenario D: with an empty weight buffer, the overload for weighted
    algorithms makes the plain training call. *)
Lemma empty_weights_train_plain h args i :
  weights h = [] ->
  TrainMaybeWeighted Train TrainWeighted h args i = TrainPlain Train h args i.
Proof. intros E. unfold TrainMaybeWeighted. now rewrite E. Qed.

(** *** Further properties of the harness *)

Lemma span_app_l {A} (m tail : list A) (first len : Z) :
  0 <= first -> 0 <= len -> first + len <= Arma.n_cols m ->
  Arma.span (m ++ tail) first len = Arma.span m first len.
Proof.
  unfold Arma.span, Arma.n_cols. intros Hf Hl H.
  rewrite skipn_app, firstn_app, length_skipn.
  replace (Z.to_nat len - (length m - Z.to_nat first))%nat with 0%nat by lia.
  cbn [firstn]. now rewrite app_nil_r.
Qed.

(** A staged buffer is a prefix of the buffer written twice. *)
Lemma staged_prefix_of_doubled {A} (m : list A) (d : nat) :
  m ++ m = (m ++ firstn d m) ++ skipn d m.
Proof. now rewrite <- app_assoc, firstn_skipn. Qed.

Lemma validation_views K X Y W h i :
  SizeT.in_range K -> SizeT.in_range (Arma.n_cols X) ->
  StagedFrom K X Y W h -> 0 <= i < K ->
  let first := ValidationSubsetFirstCol h i in
  let len := ValidationSubsetSize h i in
  first + len <= Arma.n_cols X /\
  GetValidationSubset h (xs h) i = Ok (Arma.span X first len) /\
  GetValidationSubset h (ys h) i = Ok (Arma.span Y first len).
Proof.
  intros HK Hn S Hi first len.
  destruct (windows_fit K X Y W h i HK Hn S Hi) as (F0 & L0 & FL & _).
  fold first in F0, FL. fold len in L0, FL.
  destruct (staged_buffers_cols K X Y W h Hn S) as (Nx & Ny & _).
  assert (D : 0 <= Arma.n_cols X / K * (K - 2)).
  { destruct S as [_ Hf He _ _ _ _ _ _ _].
    apply (duplicate_fits K (Arma.n_cols X)); [apply Hn | exact Hf | exact He]. }
  destruct S as [_ _ _ Ey _ _ _ Ex Eys _].
  split; [exact FL |].
  unfold GetValidationSubset. fold first len.
  rewrite !colptr_view_inside by lia.
  rewrite Ex, Eys.
  rewrite !span_app_l by (rewrite ?Ey; lia).
  split; reflexivity.
Qed.

Lemma nonempty_weights_staged K X Y w h :
  SizeT.in_range (Arma.n_cols X) -> StagedFrom K X Y (Some w) h ->
  Arma.n_cols (weights h) = Arma.n_cols X + Arma.n_cols X / K * (K - 2).
Proof.
  intros Hn S.
  destruct (staged_buffers_cols K X Y (Some w) h Hn S) as (_ & _ & Nw).
  destruct Nw as [Nw | Nw]; [| exact Nw].
  destruct S as [_ _ _ _ _ _ _ _ _ (Enw & Ew)].
  rewrite Nw in Ew. symmetry in Ew. apply app_eq_nil in Ew.
  destruct Ew as (-> & _). rewrite Nw. cbn in Enw.
  rewrite <- Enw. reflexivity.
Qed.

Lemma training_views K X Y W h i :
  SizeT.in_range K -> SizeT.in_range (Arma.n_cols X) ->
  StagedFrom K X Y W h -> 0 <= i < K ->
  let first := TrainingSubsetFirstCol h i in
  let len := TrainingSubsetSize h i in
  GetTrainingSubset h (xs h) i = Ok (Arma.span (X ++ X) first len) /\
  GetTrainingSubset h (ys h) i = Ok (Arma.span (Y ++ Y) first len) /\
  (forall w, W = Some w ->
     GetTrainingSubset h (weights h) i = Ok (Arma.span (w ++ w) first len)).
Proof.
  intros HK Hn S Hi first len.
  destruct (windows_fit K X Y W h i HK Hn S Hi) as (_ & _ & _ & F0 & L0 & FL).
  fold first in F0, FL. fold len in L0, FL.
  destruct (staged_buffers_cols K X Y W h Hn S) as (Nx & Ny & _).
  unfold GetTrainingSubset. fold first len.
  split; [| split].
  - destruct S as [_ _ _ _ _ _ _ Ex _ _].
    rewrite colptr_view_inside by lia.
    rewrite (staged_prefix_of_doubled X
               (Z.to_nat (Arma.n_cols X / K * (K - 2)))), <- Ex.
    now rewrite span_app_l by lia.
  - destruct S as [_ _ _ _ _ _ _ _ Eys _].
    rewrite colptr_view_inside by lia.
    rewrite (staged_prefix_of_doubled Y
               (Z.to_nat (Arma.n_cols X / K * (K - 2)))), <- Eys.
    now rewrite span_app_l by lia.
  - intros w ->.
    pose proof (nonempty_weights_staged K X Y w h Hn S) as Hw.
    destruct S as [_ _ _ _ _ _ _ _ _ (_ & Ew)].
    rewrite colptr_view_inside by lia.
    rewrite (staged_prefix_of_doubled w
               (Z.to_nat (Arma.n_cols X / K * (K - 2)))), <- Ew.
    now rewrite span_app_l by lia.
Qed.

(** The length that [GetTrainingSubset] gives the last fold would fit every
    fold after the first: taken from column [binSize * i] it stays inside
    the staged buffer, and with the validation window it makes up all [n]
    samples. *)
Lemma last_fold_length_fits_every_fold K X Y W h0 h i :
  SizeT.in_range K -> SizeT.in_range (Arma.n_cols X) ->
  Construct MLAlgorithm K X Y W = Ok h0 -> reachable h0 h ->
  1 <= i < K ->
  let len := lastBinSize h + (K - 2) * binSize h in
  binSize h * i + len <= Arma.n_cols (xs h) /\
  len + ValidationSubsetSize h i = Arma.n_cols X /\
  Arma.colptr_view (xs h) (binSize h * i) len
    = Ok (Arma.span (xs h) (binSize h * i) len).
Proof.
  intros HK Hn C R Hi len.
  pose proof (harness_staged K X Y W h0 h HK Hn C R) as S.
  destruct (staged_buffers_cols K X Y W h Hn S) as (Nx & _ & _).
  destruct (windows_exact K X Y W h i HK Hn S ltac:(lia)) as (_ & El & _ & _).
  assert (Hfit : binSize h * i + len <= Arma.n_cols (xs h) /\
                 len + ValidationSubsetSize h i = Arma.n_cols X).
  { rewrite Nx, El. subst len.
    destruct S as [_ Hf _ _ Eb _ El' _ _ _]. rewrite Eb, El'.
    destruct (bin_bounds (Arma.n_cols X) K) as (Hb0 & Hb1 & Hb2);
      [apply Hn | lia |].
    destruct (Z.eqb_spec i 0); [lia |]. split; nia. }
  destruct Hfit as (Hfit & Hsum).
  split; [exact Hfit |]. split; [exact Hsum |].
  now apply colptr_view_inside.
Qed.

Lemma validation_columns_partition K X Y W h c :
  SizeT.in_range K -> SizeT.in_range (Arma.n_cols X) ->
  StagedFrom K X Y W h ->
  K <= Arma.n_cols X -> 0 <= c < Arma.n_cols X ->
  exists! i, 0 <= i < K /\ In c (ValidationColumns h (Arma.n_cols X) i).
Proof.
  intros HK Hn S Hle Hc.
  assert (Hf : 2 <= K) by now destruct S.
  set (n := Arma.n_cols X) in *. set (b := n / K).
  destruct (bin_bounds n K) as (Hb0 & Hb1 & Hb2); [apply Hn | lia |].
  pose proof (bin_positive n K ltac:(lia) Hle) as Hb. fold b in Hb0, Hb1, Hb2, Hb.
  destruct (bin_bounds c b) as (Hq0 & Hq1 & Hq2); [lia | lia |].
  destruct (Z_le_gt_dec (b * (K - 1)) c) as [Hlast | Hbody].
  - exists 0. split.
    + split; [lia |].
      apply (In_ValidationColumns K X Y W h 0 c HK Hn S); [lia |].
      cbn. fold n b. lia.
    + intros i' (Hi' & Hin).
      apply (In_ValidationColumns K X Y W h i' c HK Hn S Hi') in Hin.
      fold n b in Hin.
      destruct (Z.eqb_spec i' 0) as [| N0]; [congruence | nia].
  - exists (c / b + 1).
    assert (Hi : 0 <= c / b + 1 < K) by nia.
    split.
    + split; [exact Hi |].
      apply (In_ValidationColumns K X Y W h _ c HK Hn S Hi).
      fold n b.
      destruct (Z.eqb_spec (c / b + 1) 0) as [| N0]; [lia | nia].
    + intros i' (Hi' & Hin).
      apply (In_ValidationColumns K X Y W h i' c HK Hn S Hi') in Hin.
      fold n b in Hin.
      destruct (Z.eqb_spec i' 0) as [| N0]; [lia | nia].
Qed.

Lemma span_nth_error {A} (m : list A) (first len p : Z) :
  0 <= first -> 0 <= p < len ->
  nth_error (Arma.span m first len) (Z.to_nat p)
    = nth_error m (Z.to_nat (first + p)).
Proof.
  intros Hf Hp. unfold Arma.span.
  rewrite nth_error_firstn, nth_error_skipn.
  destruct (Nat.ltb_spec (Z.to_nat p) (Z.to_nat len)) as [| Hge]; [| lia].
  f_equal. lia.
Qed.

Lemma firstn_then_span {A} (m : list A) (a b : Z) :
  0 <= a -> 0 <= b -> a <= Arma.n_cols m ->
  firstn (Z.to_nat a) m ++ Arma.span m a b = firstn (Z.to_nat (a + b)) m.
Proof.
  unfold Arma.span, Arma.n_cols. intros Ha Hb Hlen.
  rewrite <- (firstn_skipn (Z.to_nat a) m) at 3.
  rewrite firstn_app, length_firstn.
  rewrite (firstn_all2 (n := Z.to_nat (a + b)) (firstn (Z.to_nat a) m))
    by (rewrite length_firstn; lia).
  f_equal. f_equal. lia.
Qed.

(** Consecutive bins of width [b], from the first column on, make up a
    prefix of the buffer. *)
Lemma concat_bins {A} (m : list A) (b : Z) (count : nat) :
  0 <= b -> b * Z.of_nat count <= Arma.n_cols m ->
  concat (map (fun i => Arma.span m (b * (i - 1)) b)
              (map Z.of_nat (seq 1 count)))
  = firstn (Z.to_nat (b * Z.of_nat count)) m.
Proof.
  intros Hb. induction count as [| count IH]; intros Hlen.
  - cbn. now rewrite Z.mul_0_r.
  - rewrite seq_S, !map_app, concat_app, IH by lia.
    cbn [map concat Nat.add]. rewrite app_nil_r.
    replace (Z.of_nat (S count) - 1) with (Z.of_nat count) by lia.
    rewrite firstn_then_span by nia.
    f_equal. f_equal. lia.
Qed.

(** A sample is in the window that [GetValidationSubset] returns exactly
    when its index is among the validation columns of the fold. *)
Lemma InValidationWindow_iff K X Y W h i c :
  SizeT.in_range K -> SizeT.in_range (Arma.n_cols X) ->
  StagedFrom K X Y W h -> 0 <= i < K ->
  InValidationWindow h X i c <-> In c (ValidationColumns h (Arma.n_cols X) i).
Proof.
  intros HK Hn S Hi.
  destruct (validation_views K X Y W h i HK Hn S Hi) as (FL & Vx & _).
  destruct (windows_fit K X Y W h i HK Hn S Hi) as (F0 & L0 & _).
  unfold InValidationWindow, ValidationColumns.
  rewrite in_map_iff. split.
  - intros (v & p & Ev & Hp & Ec & _).
    rewrite Vx in Ev. injection Ev as <-.
    rewrite span_n_cols in Hp by lia.
    exists (ValidationSubsetFirstCol h i + p). split; [exact Ec |].
    apply In_window_cols. lia.
  - intros (j & Ec & Hj). apply In_window_cols in Hj.
    exists (Arma.span X (ValidationSubsetFirstCol h i)
              (ValidationSubsetSize h i)), (j - ValidationSubsetFirstCol h i).
    split; [exact Vx |].
    rewrite span_n_cols by lia.
    split; [lia |].
    replace (ValidationSubsetFirstCol h i + (j - ValidationSubsetFirstCol h i))
      with j by lia.
    split; [exact Ec |].
    rewrite span_nth_error by lia.
    replace (ValidationSubsetFirstCol h i + (j - ValidationSubsetFirstCol h i))
      with j by lia.
    unfold orig_col in Ec.
    destruct (Z.ltb_spec j (Arma.n_cols X)); [now subst c | lia].
Qed.

(** The windows that [GetValidationSubset] returns for the folds
    1, ..., [K - 1], 0, put end to end, are the original buffer. *)
Lemma validation_views_concat K X Y W h :
  SizeT.in_range K -> SizeT.in_range (Arma.n_cols X) ->
  StagedFrom K X Y W h ->
  exists vx vy,
    map (GetValidationSubset h (xs h)) (validation_order K) = map Ok vx /\
    map (GetValidationSubset h (ys h)) (validation_order K) = map Ok vy /\
    concat vx = X /\ concat vy = Y.
Proof.
  intros HK Hn S.
  assert (Hf : 2 <= K) by now destruct S.
  assert (Ey : Arma.n_cols Y = Arma.n_cols X) by now destruct S.
  set (n := Arma.n_cols X) in *. set (b := n / K).
  destruct (bin_bounds n K) as (Hb0 & Hb1 & Hb2); [apply Hn | lia |].
  fold b in Hb0, Hb1, Hb2.
  assert (Hviews : forall i, 0 <= i < K ->
            GetValidationSubset h (xs h) i
              = Ok (if i =? 0 then Arma.span X (b * (K - 1)) (n - (K - 1) * b)
                    else Arma.span X (b * (i - 1)) b) /\
            GetValidationSubset h (ys h) i
              = Ok (if i =? 0 then Arma.span Y (b * (K - 1)) (n - (K - 1) * b)
                    else Arma.span Y (b * (i - 1)) b)).
  { intros i Hi.
    destruct (validation_views K X Y W h i HK Hn S Hi) as (_ & Vx & Vy).
    destruct (windows_exact K X Y W h i HK Hn S Hi) as (Ef & El & _ & _).
    rewrite Vx, Vy, Ef, El.
    destruct S as [_ _ _ _ Eb Et El' _ _ _]. rewrite Eb, Et, El'.
    fold n b. destruct (i =? 0); split; reflexivity. }
  assert (Hmid : forall {A} (B : list A) (g : Z -> result (list A)),
            (forall i, 0 <= i < K ->
               g i = Ok (if i =? 0
                         then Arma.span B (b * (K - 1)) (n - (K - 1) * b)
                         else Arma.span B (b * (i - 1)) b)) ->
            map g (validation_order K)
            = map Ok (map (fun i => Arma.span B (b * (i - 1)) b)
                          (map Z.of_nat (seq 1 (Z.to_nat K - 1)))
                      ++ [Arma.span B (b * (K - 1)) (n - (K - 1) * b)])).
  { intros A B g Hg. unfold validation_order.
    rewrite !map_app. f_equal.
    - rewrite !map_map. apply map_ext_in. intros j Hj.
      apply in_seq in Hj. rewrite Hg by lia.
      destruct (Z.eqb_spec (Z.of_nat j) 0); [lia | reflexivity].
    - cbn [map]. rewrite Hg by lia. reflexivity. }
  assert (Hall : forall {A} (B : list A), Arma.n_cols B = n ->
            concat (map (fun i => Arma.span B (b * (i - 1)) b)
                        (map Z.of_nat (seq 1 (Z.to_nat K - 1)))
                    ++ [Arma.span B (b * (K - 1)) (n - (K - 1) * b)])
            = B).
  { intros A B EB.
    rewrite concat_app, concat_bins by (rewrite ?EB; nia).
    cbn [concat]. rewrite app_nil_r.
    replace (Z.of_nat (Z.to_nat K - 1)) with (K - 1) by lia.
    rewrite firstn_then_span by (rewrite ?EB; nia).
    apply firstn_all2. unfold Arma.n_cols in EB. lia. }
  do 2 eexists. split; [| split; [| split]].
  - apply Hmid. intros i Hi. apply (Hviews i Hi).
  - apply Hmid. intros i Hi. apply (Hviews i Hi).
  - apply Hall. reflexivity.
  - apply Hall. exact Ey.
Qed.

(** C7. In a harness built from [n] samples in [K] folds with [n >= K],
    every original column [c] is validated in exactly one fold: there is
    one and only one fold index [i] in [0, K) for which the window that
    [GetValidationSubset] returns holds a staged column that [orig_col]
    maps back to [c], and what it holds there is the original column [c].
    The windows returned for the folds 1, ..., [K - 1], 0, put end to end,
    are the original features, and likewise the original labels: the
    validation windows cut the dataset into [K] pieces. *)
Theorem validation_windows_partition K X Y W h0 h c :
  SizeT.in_range K -> SizeT.in_range (Arma.n_cols X) ->
  Construct MLAlgorithm K X Y W = Ok h0 -> reachable h0 h ->
  K <= Arma.n_cols X -> 0 <= c < Arma.n_cols X ->
  (exists! i, 0 <= i < K /\ InValidationWindow h X i c) /\
  exists vx vy,
    map (GetValidationSubset h (xs h)) (validation_order K) = map Ok vx /\
    map (GetValidationSubset h (ys h)) (validation_order K) = map Ok vy /\
    concat vx = X /\ concat vy = Y.
Proof.
  intros HK Hn C R Hle Hc.
  pose proof (harness_staged K X Y W h0 h HK Hn C R) as S.
  split; [| now apply (validation_views_concat K X Y W h)].
  destruct (validation_columns_partition K X Y W h c HK Hn S Hle Hc)
    as (i & (Hi & Hin) & Huniq).
  exists i. split.
  - split; [exact Hi |].
    now apply (InValidationWindow_iff K X Y W h i c HK Hn S Hi).
  - intros i' (Hi' & Hin'). apply Huniq. split; [exact Hi' |].
    now apply (InValidationWindow_iff K X Y W h i' c HK Hn S Hi').
Qed.

(** X1. Every validation window lies in the original part of the staged
    buffers: it holds the same columns as that span of the buffers given to
    the constructor, and never reads the duplicated tail. *)
Theorem validation_reads_original K X Y W h0 h i :
  SizeT.in_range K -> SizeT.in_range (Arma.n_cols X) ->
  Construct MLAlgorithm K X Y W = Ok h0 -> reachable h0 h ->
  0 <= i < K ->
  let first := ValidationSubsetFirstCol h i in
  let len := ValidationSubsetSize h i in
  first + len <= Arma.n_cols X /\
  GetValidationSubset h (xs h) i = Ok (Arma.span X first len) /\
  GetValidationSubset h (ys h) i = Ok (Arma.span Y first len).
Proof.
  intros HK Hn C R Hi.
  apply (validation_views K X Y W h i HK Hn); [| exact Hi].
  exact (harness_staged K X Y W h0 h HK Hn C R).
Qed.

(** X2. Every training window is a window of the original buffer read
    cyclically: it holds the columns of that span of the buffer written
    twice in a row.  Features, labels and weights are cut alike. *)
Theorem training_window_is_cyclic K X Y W h0 h i :
  SizeT.in_range K -> SizeT.in_range (Arma.n_cols X) ->
  Construct MLAlgorithm K X Y W = Ok h0 -> reachable h0 h ->
  0 <= i < K ->
  let first := TrainingSubsetFirstCol h i in
  let len := TrainingSubsetSize h i in
  GetTrainingSubset h (xs h) i = Ok (Arma.span (X ++ X) first len) /\
  GetTrainingSubset h (ys h) i = Ok (Arma.span (Y ++ Y) first len) /\
  (forall w, W = Some w ->
     GetTrainingSubset h (weights h) i = Ok (Arma.span (w ++ w) first len)).
Proof.
  intros HK Hn C R Hi.
  apply (training_views K X Y W h i HK Hn); [| exact Hi].
  exact (harness_staged K X Y W h0 h HK Hn C R).
Qed.

Lemma In_TrainingColumns K X Y W h i c :
  SizeT.in_range K -> SizeT.in_range (Arma.n_cols X) ->
  StagedFrom K X Y W h -> 0 <= i < K ->
  let n := Arma.n_cols X in
  let first := n / K * i in
  let len := if i =? K - 1 then n - n / K else n / K * (K - 1) in
  In c (TrainingColumns h n i) <->
  (first <= c < n /\ c < first + len) \/ 0 <= c < first + len - n.
Proof.
  intros HK Hn S Hi n first len.
  destruct (windows_exact K X Y W h i HK Hn S Hi) as (_ & _ & Ef & El).
  destruct (windows_fit K X Y W h i HK Hn S Hi) as (_ & _ & _ & F0 & L0 & FL).
  unfold TrainingColumns. rewrite in_map_iff.
  destruct S as [Ek Hf He _ Eb Et El' _ _ _].
  rewrite Ef, El in *. rewrite Ek, Eb, Et, El' in *.
  fold n in F0, L0, FL |- *.
  destruct (bin_bounds n K) as (Hb0 & Hb1 & Hb2); [apply Hn | lia |].
  assert (Elen : (if i =? K - 1
                  then n - (K - 1) * (n / K) + (K - 2) * (n / K)
                  else n / K * (K - 1)) = len).
  { subst len. destruct (i =? K - 1); lia. }
  rewrite Elen in *. fold first in F0, FL |- *.
  assert (Hd : n / K * (K - 2) <= n) by nia.
  split.
  - intros (j & <- & Hj). apply In_window_cols in Hj.
    unfold orig_col. destruct (Z.ltb_spec j n); lia.
  - intros [(H1 & H2) | H].
    + exists c. split; [| apply In_window_cols; lia].
      unfold orig_col. destruct (Z.ltb_spec c n); lia.
    + exists (c + n). split; [| apply In_window_cols; subst first; nia].
      unfold orig_col. destruct (Z.ltb_spec (c + n) n); lia.
Qed.

(** X3. In every fold, no sample is both trained on and validated on: the
    training window and the validation window hold different original
    columns. *)
Theorem fold_windows_disjoint K X Y W h0 h i c :
  SizeT.in_range K -> SizeT.in_range (Arma.n_cols X) ->
  Construct MLAlgorithm K X Y W = Ok h0 -> reachable h0 h ->
  0 <= i < K ->
  In c (TrainingColumns h (Arma.n_cols X) i) ->
  ~ In c (ValidationColumns h (Arma.n_cols X) i).
Proof.
  intros HK Hn C R Hi Ht Hv.
  pose proof (harness_staged K X Y W h0 h HK Hn C R) as S.
  apply (In_TrainingColumns K X Y W h i c HK Hn S Hi) in Ht.
  apply (In_ValidationColumns K X Y W h i c HK Hn S Hi) in Hv.
  assert (Hf : 2 <= K) by now destruct S.
  set (n := Arma.n_cols X) in *. set (b := n / K) in *.
  destruct (bin_bounds n K) as (Hb0 & Hb1 & Hb2); [apply Hn | lia |].
  fold b in Hb0, Hb1, Hb2.
  destruct (Z.eqb_spec i 0) as [E0 | N0];
    destruct (Z.eqb_spec i (K - 1)) as [E1 | N1]; nia.
Qed.

(** X4. In the first fold and in the last fold every sample is used: each
    original column is in the training window or in the validation
    window. *)
Theorem outer_folds_use_every_sample K X Y W h0 h i c :
  SizeT.in_range K -> SizeT.in_range (Arma.n_cols X) ->
  Construct MLAlgorithm K X Y W = Ok h0 -> reachable h0 h ->
  i = 0 \/ i = K - 1 ->
  0 <= c < Arma.n_cols X ->
  In c (TrainingColumns h (Arma.n_cols X) i) \/
  In c (ValidationColumns h (Arma.n_cols X) i).
Proof.
  intros HK Hn C R Hio Hc.
  pose proof (harness_staged K X Y W h0 h HK Hn C R) as S.
  assert (Hf : 2 <= K) by now destruct S.
  assert (Hi : 0 <= i < K) by lia.
  rewrite (In_TrainingColumns K X Y W h i c HK Hn S Hi).
  rewrite (In_ValidationColumns K X Y W h i c HK Hn S Hi).
  set (n := Arma.n_cols X) in *. set (b := n / K) in *.
  destruct (bin_bounds n K) as (Hb0 & Hb1 & Hb2); [apply Hn | lia |].
  fold b in Hb0, Hb1, Hb2.
  destruct (Z.eqb_spec i 0) as [E0 | N0];
    destruct (Z.eqb_spec i (K - 1)) as [E1 | N1]; nia.
Qed.

Lemma window_cols_NoDup (first len : Z) : NoDup (window_cols first len).
Proof.
  unfold window_cols. apply NoDup_map_NoDup_ForallPairs.
  - intros a b _ _ E. lia.
  - apply seq_NoDup.
Qed.

(** X5. No training window holds a sample twice, although the staged
    buffer holds some samples twice. *)
Theorem training_window_has_no_repeats K X Y W h0 h i :
  SizeT.in_range K -> SizeT.in_range (Arma.n_cols X) ->
  Construct MLAlgorithm K X Y W = Ok h0 -> reachable h0 h ->
  0 <= i < K ->
  NoDup (TrainingColumns h (Arma.n_cols X) i).
Proof.
  intros HK Hn C R Hi.
  pose proof (harness_staged K X Y W h0 h HK Hn C R) as S.
  destruct (windows_exact K X Y W h i HK Hn S Hi) as (_ & _ & Ef & El).
  destruct (windows_fit K X Y W h i HK Hn S Hi) as (_ & _ & _ & F0 & L0 & FL).
  assert (Hlen : TrainingSubsetSize h i <= Arma.n_cols X).
  { rewrite El. destruct S as [Ek Hf He _ Eb Et El' _ _ _].
    rewrite Ek, Eb, Et, El'.
    destruct (bin_bounds (Arma.n_cols X) K) as (Hb0 & Hb1 & Hb2);
      [apply Hn | lia |].
    destruct (i =? K - 1); nia. }
  unfold TrainingColumns.
  apply NoDup_map_NoDup_ForallPairs; [| apply window_cols_NoDup].
  intros a b Ha Hb. apply In_window_cols in Ha, Hb.
  unfold orig_col.
  destruct (Z.ltb_spec a (Arma.n_cols X));
    destruct (Z.ltb_spec b (Arma.n_cols X)); lia.
Qed.

(** X6. What a fold computes, on the data given to the constructor: the
    model is trained on the cyclic training spans of the original features
    and labels, with the same span of the weights when the algorithm takes
    weights and a non-empty weight buffer was given, and without weights
    otherwise; it is scored on the validation spans of the original
    features and labels. *)
Theorem fold_calls_on_original_data K X Y W h0 h args i :
  SizeT.in_range K -> SizeT.in_range (Arma.n_cols X) ->
  Construct MLAlgorithm K X Y W = Ok h0 -> reachable h0 h ->
  0 <= i < K ->
  let tf := TrainingSubsetFirstCol h i in
  let tl := TrainingSubsetSize h i in
  let vf := ValidationSubsetFirstCol h i in
  let vl := ValidationSubsetSize h i in
  let plain :=
    Train (Arma.span (X ++ X) tf tl) (Arma.span (Y ++ Y) tf tl) args in
  train h args i
    = match W with
      | Some w =>
        if SupportsWeights && (0 <? Arma.n_cols X)
        then TrainWeighted (Arma.span (X ++ X) tf tl)
               (Arma.span (Y ++ Y) tf tl) (Arma.span (w ++ w) tf tl) args
        else plain
      | None => plain
      end /\
  forall m,
    score h m i = MetricEvaluate m (Arma.span X vf vl) (Arma.span Y vf vl).
Proof.
  intros HK Hn C R Hi tf tl vf vl plain.
  pose proof (harness_staged K X Y W h0 h HK Hn C R) as S.
  destruct (training_views K X Y W h i HK Hn S Hi) as (Tx & Ty & Tw).
  destruct (validation_views K X Y W h i HK Hn S Hi) as (_ & Vx & Vy).
  fold tf tl in Tx, Ty, Tw. fold vf vl in Vx, Vy.
  split.
  - assert (P : TrainPlain Train h args i = plain).
    { unfold TrainPlain. rewrite Tx, Ty. reflexivity. }
    unfold TrainingCall, TrainMaybeWeighted.
    destruct W as [w |].
    + rewrite (nonempty_weights_staged K X Y w h Hn S).
      assert (D : 0 <= Arma.n_cols X / K * (K - 2) <= Arma.n_cols X).
      { destruct S as [_ Hf He _ _ _ _ _ _ _].
        apply (duplicate_fits K (Arma.n_cols X));
          [apply Hn | exact Hf | exact He]. }
      assert (E : (0 <? Arma.n_cols X + Arma.n_cols X / K * (K - 2))
                  = (0 <? Arma.n_cols X)).
      { destruct (Z.ltb_spec 0 (Arma.n_cols X));
          [apply Z.ltb_lt | apply Z.ltb_ge]; lia. }
      rewrite E.
      destruct SupportsWeights; cbn [andb]; [| exact P].
      destruct (0 <? Arma.n_cols X); [| exact P].
      rewrite Tx, Ty, (Tw w eq_refl). reflexivity.
    + destruct S as [_ _ _ _ _ _ _ _ _ Ew]. rewrite Ew. cbn.
      destruct SupportsWeights; exact P.
  - intros m. unfold Score. rewrite Vx, Vy. reflexivity.
Qed.

(** *** What a run does to the harness and to later runs *)

Lemma Reachable_set_modelPtr h0 h :
  SizeT.in_range (k h0) -> reachable h0 h ->
  h = set_modelPtr h0 (modelPtr h).
Proof.
  intros Hk R. induction R as [| h args r h' R IH E].
  - symmetry. apply set_modelPtr_self.
  - apply Evaluate_state in E;
      [| rewrite (Reachable_k h0 h Hk R); exact Hk].
    rewrite E, IH. reflexivity.
Qed.

(** X7. The staged buffers, the fold count and the fold geometry never
    change after construction: whatever [Evaluate] calls are made, and
    whether they fail or not, only the model pointer may differ. *)
Theorem runs_keep_staged_data h0 h :
  SizeT.in_range (k h0) -> reachable h0 h ->
  k h = k h0 /\ xs h = xs h0 /\ ys h = ys h0 /\ weights h = weights h0 /\
  binSize h = binSize h0 /\ trainingSubsetSize h = trainingSubsetSize h0 /\
  lastBinSize h = lastBinSize h0.
Proof.
  intros Hk R. rewrite (Reachable_set_modelPtr h0 h Hk R). cbn.
  repeat split.
Qed.

Lemma loop_ignores_model args idx : forall ev h p,
  fst (loop args idx ev (set_modelPtr h p)) = fst (loop args idx ev h).
Proof.
  induction idx as [| i rest IH]; intros ev h p; [reflexivity |].
  cbn [FoldLoop].
  change (train (set_modelPtr h p) args i) with (train h args i).
  destruct (train h args i) as [m | e]; [| reflexivity].
  change (score (set_modelPtr h p) m i) with (score h m i).
  destruct (score h m i) as [s | e]; [| reflexivity].
  change (k (set_modelPtr h p)) with (k h).
  destruct (i =? SizeT.sub (k h) 1).
  - reflexivity.
  - apply IH.
Qed.

Lemma Evaluate_ignores_model h p args :
  fst (Evaluate Train TrainWeighted MetricEvaluate SupportsWeights
         (set_modelPtr h p) args)
  = fst (Evaluate Train TrainWeighted MetricEvaluate SupportsWeights h args).
Proof.
  rewrite !Evaluate_unfold. unfold RunFolds.
  change (k (set_modelPtr h p)) with (k h).
  pose proof (loop_ignores_model args (fold_indices (k h))
                (repeat 0%Q (Z.to_nat (k h))) h p) as E.
  destruct (loop args (fold_indices (k h)) _ (set_modelPtr h p))
    as [r1 h1].
  destruct (loop args (fold_indices (k h)) _ h) as [r2 h2].
  cbn [fst] in E. subst r2. destruct r1; reflexivity.
Qed.

(** X8. The score of a run does not depend on earlier runs: in every state
    that the harness can reach, [Evaluate] with the same arguments returns
    what it returns on the fresh harness, a score or the same failure. *)
Theorem score_independent_of_history h0 h args :
  SizeT.in_range (k h0) -> reachable h0 h ->
  fst (Evaluate Train TrainWeighted MetricEvaluate SupportsWeights h args)
  = fst (Evaluate Train TrainWeighted MetricEvaluate SupportsWeights h0 args).
Proof.
  intros Hk R. rewrite (Reachable_set_modelPtr h0 h Hk R).
  apply Evaluate_ignores_model.
Qed.

Lemma FoldOutcome_Ok h args i s :
  FoldOutcome Train TrainWeighted MetricEvaluate SupportsWeights h args i
    = Ok s ->
  exists m, train h args i = Ok m /\ score h m i = Ok s.
Proof. unfold FoldOutcome. intros E. apply rbind_Ok in E. exact E. Qed.

Lemma loop_first_failure args (i : nat) e n : forall a ev h,
  SizeT.in_range (k h) -> Z.of_nat (a + n) <= k h ->
  (a <= i < a + n)%nat ->
  (forall j, Z.of_nat a <= j < Z.of_nat i ->
     exists s, FoldOutcome Train TrainWeighted MetricEvaluate SupportsWeights
                 h args j = Ok s) ->
  FoldOutcome Train TrainWeighted MetricEvaluate SupportsWeights
    h args (Z.of_nat i) = Err e ->
  loop args (map Z.of_nat (seq a n)) ev h = (Err e, h).
Proof.
  induction n as [| n IH]; intros a ev h Hk Hlen Hi Hbefore Hfail; [lia |].
  cbn [seq map FoldLoop].
  destruct (Nat.eq_dec a i) as [-> | Hne].
  - unfold FoldOutcome in Hfail.
    destruct (train h args (Z.of_nat i)) as [m | e']; cbn [rbind] in Hfail.
    + now rewrite Hfail.
    + now injection Hfail as ->.
  - destruct (Hbefore (Z.of_nat a)) as (s & Es); [lia |].
    apply FoldOutcome_Ok in Es. destruct Es as (m & Et & Es).
    rewrite Et, Es.
    assert (Hc : (Z.of_nat a =? SizeT.sub (k h) 1) = false).
    { apply Z.eqb_neq. rewrite SizeTFacts.sub_exact by (auto; lia). lia. }
    rewrite Hc. apply IH; [exact Hk | lia | lia | | exact Hfail].
    intros j Hj. apply Hbefore. lia.
Qed.

(** X9. The first fold that fails ends the run with its own failure: when
    the folds before fold [i] can be trained and scored and fold [i] fails
    with [e], in its training or in its metric, [Evaluate] fails with [e];
    no later fold is run and the harness is left as it was. *)
Theorem first_failure_propagates h args i e :
  SizeT.in_range (k h) -> 0 <= i < k h ->
  (forall j, 0 <= j < i ->
     exists s, FoldOutcome Train TrainWeighted MetricEvaluate SupportsWeights
                 h args j = Ok s) ->
  FoldOutcome Train TrainWeighted MetricEvaluate SupportsWeights h args i
    = Err e ->
  Evaluate Train TrainWeighted MetricEvaluate SupportsWeights h args
    = (Err e, h).
Proof.
  intros Hk Hi Hbefore Hfail.
  rewrite Evaluate_unfold. unfold RunFolds, fold_indices.
  rewrite (loop_first_failure args (Z.to_nat i) e (Z.to_nat (k h)) 0%nat);
    try reflexivity; try assumption; try lia.
  - intros j Hj. apply Hbefore. lia.
  - rewrite Z2Nat.id by lia. exact Hfail.
Qed.

Lemma windows_readable K X Y W h i :
  SizeT.in_range K -> SizeT.in_range (Arma.n_cols X) ->
  StagedFrom K X Y W h -> 0 <= i < K ->
  (exists tx ty, GetTrainingSubset h (xs h) i = Ok tx /\
                 GetTrainingSubset h (ys h) i = Ok ty /\
                 (0 < Arma.n_cols (weights h) ->
                  exists tw, GetTrainingSubset h (weights h) i = Ok tw)) /\
  (exists vx vy, GetValidationSubset h (xs h) i = Ok vx /\
                 GetValidationSubset h (ys h) i = Ok vy).
Proof.
  intros HK Hn S Hi.
  destruct (windows_fit K X Y W h i HK Hn S Hi)
    as (F0 & L0 & FL & F0' & L0' & FL').
  destruct (staged_buffers_cols K X Y W h Hn S) as (Nx & Ny & Nw).
  assert (D : 0 <= Arma.n_cols X / K * (K - 2)).
  { destruct S as [_ Hf He _ _ _ _ _ _ _].
    apply (duplicate_fits K (Arma.n_cols X)); [apply Hn | exact Hf | exact He]. }
  unfold GetTrainingSubset, GetValidationSubset. split.
  - do 2 eexists. split; [apply colptr_view_inside; lia |].
    split; [apply colptr_view_inside; lia |].
    intros Hw. destruct Nw as [Nw | Nw]; [rewrite Nw in Hw; cbn in Hw; lia |].
    eexists. apply colptr_view_inside. lia.
  - do 2 eexists. split; apply colptr_view_inside; lia.
Qed.

(** X10. Windows never make a run fail: on a constructed harness, when the
    training operations and the metric return a result on every input,
    [Evaluate] returns a score. *)
Theorem Evaluate_succeeds_with_total_collaborators K X Y W h0 h args :
  (forall x y a, exists m, Train x y a = Ok m) ->
  (forall x y w a, exists m, TrainWeighted x y w a = Ok m) ->
  (forall m x y, exists s, MetricEvaluate m x y = Ok s) ->
  SizeT.in_range K -> SizeT.in_range (Arma.n_cols X) ->
  Construct MLAlgorithm K X Y W = Ok h0 -> reachable h0 h ->
  exists s h',
    Evaluate Train TrainWeighted MetricEvaluate SupportsWeights h args
      = (Ok s, h').
Proof.
  intros HT HTW HM HK Hn C R.
  pose proof (harness_staged K X Y W h0 h HK Hn C R) as S.
  assert (Ek : k h = K) by now destruct S.
  assert (Hf : 2 <= K) by now destruct S.
  apply Evaluate_completes; [lia |].
  intros i Hi. rewrite Ek in Hi.
  destruct (windows_readable K X Y W h i HK Hn S Hi)
    as ((tx & ty & Tx & Ty & Tw) & (vx & vy & Vx & Vy)).
  assert (Ht : exists m, train h args i = Ok m).
  { assert (P : exists m, TrainPlain Train h args i = Ok m).
    { unfold TrainPlain. rewrite Tx, Ty. cbn [rbind]. apply HT. }
    unfold TrainingCall. destruct SupportsWeights; [| exact P].
    unfold TrainMaybeWeighted.
    destruct (Z.ltb_spec 0 (Arma.n_cols (weights h))) as [Hw | Hw];
      [| exact P].
    destruct (Tw Hw) as (tw & Etw).
    rewrite Tx, Ty, Etw. cbn [rbind]. apply HTW. }
  destruct Ht as (m & Et). exists m.
  destruct (HM m vx vy) as (s & Es). exists s.
  split; [exact Et |].
  unfold Score. rewrite Vx, Vy. exact Es.
Qed.

(** X11. Staging at most doubles a buffer: the staged features have
    [n + binSize * (K - 2)] columns, which is at most [2 * n - 2 * binSize],
    and the staged labels have as many. *)
Theorem staged_buffer_size K X Y W h0 h :
  SizeT.in_range K -> SizeT.in_range (Arma.n_cols X) ->
  Construct MLAlgorithm K X Y W = Ok h0 -> reachable h0 h ->
  Arma.n_cols (xs h) = Arma.n_cols X + binSize h * (K - 2) /\
  Arma.n_cols (ys h) = Arma.n_cols (xs h) /\
  Arma.n_cols (xs h) + 2 * binSize h <= 2 * Arma.n_cols X.
Proof.
  intros HK Hn C R.
  pose proof (harness_staged K X Y W h0 h HK Hn C R) as S.
  destruct (staged_buffers_cols K X Y W h Hn S) as (Nx & Ny & _).
  destruct S as [_ Hf _ _ Eb _ _ _ _ _].
  rewrite Nx, Ny, Eb.
  destruct (bin_bounds (Arma.n_cols X) K) as (Hb0 & Hb1 & Hb2);
    [apply Hn | lia |].
  repeat split; lia.
Qed.

Lemma staging_succeeds {A} (K : Z) (source : list A) (n : Z) :
  Arma.n_cols source = n -> SizeT.in_range n -> 2 <= K -> SizeT.in_range K ->
  K = 2 \/ K <= n ->
  exists g staged, InitKFoldCVMat K source = (g, Ok staged).
Proof.
  intros En Hn H2 HK Hc. subst n.
  pose proof (staging_exact K source Hn H2 HK Hc) as S.
  destruct (InitKFoldCVMat K source) as [g d]. cbn [snd] in S. subst d.
  eauto.
Qed.

(** X12. Which datasets can be cross-validated: for buffers of [n] columns
    each that pass the validator and [K >= 2] folds, construction succeeds
    when [K = 2] (whatever [n], even 0) or [n >= K]; with more than two
    folds and fewer samples than folds it fails in the column access of the
    staging. *)
Theorem construction_needs_enough_samples K (X : list Col) (Y : list Lab)
  (W : option (list Wt)) :
  SizeT.in_range K -> SizeT.in_range (Arma.n_cols X) -> 2 <= K ->
  Arma.n_cols Y = Arma.n_cols X ->
  (forall w, W = Some w -> Arma.n_cols w = Arma.n_cols X) ->
  (K = 2 \/ K <= Arma.n_cols X ->
   exists h, Construct MLAlgorithm K X Y W = Ok h) /\
  (2 < K -> Arma.n_cols X < K ->
   Construct MLAlgorithm K X Y W = Err IndexOutOfBounds).
Proof.
  intros HK Hn H2 Ey Ew.
  assert (Base_ok : K = 2 \/ K <= Arma.n_cols X ->
            exists h, KFoldCV_new MLAlgorithm K X Y = Ok h).
  { intros Hc. unfold KFoldCV_new, AssertDataConsistency.
    destruct (Z.ltb_spec K 2); [lia |].
    rewrite Ey, Z.eqb_refl. cbn [rbind].
    destruct (staging_succeeds K X _ eq_refl Hn H2 HK Hc) as (gx & sx & ->).
    cbn [rbind].
    destruct (staging_succeeds K Y _ Ey Hn H2 HK Hc) as (gy & sy & ->).
    cbn [rbind]. eauto. }
  assert (Base_fails : 2 < K -> Arma.n_cols X < K ->
            @KFoldCV_new Col Lab Wt MLAlgorithm K X Y
              = Err IndexOutOfBounds).
  { intros H3 Hlt. unfold KFoldCV_new, AssertDataConsistency.
    destruct (Z.ltb_spec K 2); [lia |].
    rewrite Ey, Z.eqb_refl. cbn [rbind].
    pose proof (staging_fails K X Hn H3 HK Hlt) as F.
    destruct (InitKFoldCVMat K X) as [gx dx]. cbn [snd] in F. subst dx.
    reflexivity. }
  destruct W as [w |]; cbn [Construct]; [| split; assumption].
  unfold KFoldCV_new_weights. split.
  - intros Hc. destruct (Base_ok Hc) as (h1 & ->). cbn [rbind].
    unfold AssertWeightsConsistency.
    rewrite (Ew w eq_refl), Z.eqb_refl. cbn [rbind].
    destruct (staging_succeeds K w _ (Ew w eq_refl) Hn H2 HK Hc)
      as (gw & sw & ->).
    cbn [rbind]. eauto.
  - intros H3 Hlt. rewrite (Base_fails H3 Hlt). reflexivity.
Qed.

End HarnessFacts.

(** * The scenarios of the specification, run through the theorems *)

Lemma ten_in_range : SizeT.in_range (Arma.n_cols Stub.ten).
Proof. vm_compute. split; [discriminate | reflexivity]. Qed.

Lemma small_in_range K : 0 <= K <= 10 -> SizeT.in_range K.
Proof. unfold SizeT.in_range, SizeT.modulus. lia. Qed.

(** Scenarios A, B and C are what the constructor builds. *)
Lemma scenarios_constructed :
  Construct (list nat) 5 Stub.ten Stub.ten None = Ok Stub.harnessA /\
  Construct (list nat) 3 Stub.ten Stub.ten None = Ok Stub.harnessB /\
  Construct (list nat) 2 Stub.ten Stub.ten None = Ok Stub.harnessC.
Proof. repeat split. Qed.

Lemma fold_geometry_witness :
  SizeT.in_range (Arma.n_cols Stub.ten) /\ SizeT.in_range 3 /\ 2 <= 3 /\
  g_binSize (fst (InitKFoldCVMat 3 Stub.ten)) = 10 / 3.
Proof.
  assert (H3 : SizeT.in_range 3) by (apply small_in_range; lia).
  assert (H2 : 2 <= 3) by lia.
  split; [exact ten_in_range |]. split; [exact H3 |]. split; [exact H2 |].
  exact (proj1 (fold_geometry 3 Stub.ten ten_in_range H3 H2)).
Defined.

(** Two columns cannot be staged for three folds: the duplicated range
    [0 .. trainingSubsetSize - binSize - 1] is [0 .. 0 - 0 - 1], which wraps
    to the largest [size_t] and is rejected by the checked column access,
    although the claimed staged buffer (the original followed by none of its
    columns) exists. *)
Lemma staging_rejects_two_columns_in_three_folds :
  let source := [0; 1]%nat in
  let g := fst (InitKFoldCVMat 3 source) in
  SizeT.in_range (Arma.n_cols source) /\ SizeT.in_range 3 /\ 2 <= 3 /\
  g_trainingSubsetSize g - g_binSize g = 0 /\
  snd (InitKFoldCVMat 3 source) = Err IndexOutOfBounds /\
  snd (InitKFoldCVMat 3 source)
    <> Ok (source ++ firstn (Z.to_nat (g_trainingSubsetSize g - g_binSize g))
                            source).
Proof.
  cbv zeta.
  split; [vm_compute; split; [discriminate | reflexivity] |].
  split; [apply small_in_range; lia |].
  split; [lia |].
  split; [reflexivity |].
  split; [reflexivity |].
  discriminate.
Qed.

Lemma staged_buffer_layout_witness :
  SizeT.in_range (Arma.n_cols Stub.ten) /\ SizeT.in_range 3 /\ 2 <= 3 /\
  2 < 3 /\ 3 <= Arma.n_cols Stub.ten /\
  snd (InitKFoldCVMat 3 Stub.ten) = Ok (Stub.ten ++ [0; 1; 2]%nat).
Proof.
  assert (H3 : SizeT.in_range 3) by (apply small_in_range; lia).
  assert (H2 : 2 <= 3) by lia.
  assert (H23 : 2 < 3) by lia.
  assert (Hn : 3 <= Arma.n_cols Stub.ten) by (vm_compute; discriminate).
  split; [exact ten_in_range |]. split; [exact H3 |]. split; [exact H2 |].
  split; [exact H23 |]. split; [exact Hn |].
  exact (proj1 (proj2 (staged_buffer_layout 3 Stub.ten ten_in_range H3 H2))
           H23 Hn).
Defined.

Lemma validation_window_witness :
  SizeT.in_range 3 /\ SizeT.in_range (Arma.n_cols Stub.ten) /\
  Construct (list nat) 3 Stub.ten Stub.ten None = Ok Stub.harnessB /\
  0 <= 0 < 3 /\
  ValidationSubsetFirstCol Stub.harnessB 0 = 6 /\
  ValidationSubsetSize Stub.harnessB 0 = 4 /\
  GetValidationSubset Stub.harnessB (xs Stub.harnessB) 0
    = Ok [6; 7; 8; 9]%nat.
Proof.
  assert (H3 : SizeT.in_range 3) by (apply small_in_range; lia).
  assert (Hi : 0 <= 0 < 3) by lia.
  split; [exact H3 |]. split; [exact ten_in_range |].
  split; [reflexivity |]. split; [exact Hi |].
  destruct (validation_window nat nat nat (list nat) unit
              Stub.stubTrain Stub.stubTrainWeighted Stub.stubMetric false
              3 Stub.ten Stub.ten None Stub.harnessB Stub.harnessB 0
              H3 ten_in_range eq_refl (reach_fresh _ _ _ _ _ _ _ _ _ _) Hi)
    as (Ef & El & Ex & _).
  split; [exact Ef |]. split; [exact El |]. exact Ex.
Defined.

Lemma training_window_witness :
  SizeT.in_range 3 /\ SizeT.in_range (Arma.n_cols Stub.ten) /\
  Construct (list nat) 3 Stub.ten Stub.ten None = Ok Stub.harnessB /\
  0 <= 2 < 3 /\
  TrainingSubsetFirstCol Stub.harnessB 2 = 6 /\
  TrainingSubsetSize Stub.harnessB 2 = 4 + 1 * 3 /\
  GetTrainingSubset Stub.harnessB (xs Stub.harnessB) 2
    = Ok [6; 7; 8; 9; 0; 1; 2]%nat.
Proof.
  assert (H3 : SizeT.in_range 3) by (apply small_in_range; lia).
  assert (Hi : 0 <= 2 < 3) by lia.
  split; [exact H3 |]. split; [exact ten_in_range |].
  split; [reflexivity |]. split; [exact Hi |].
  destruct (training_window nat nat nat (list nat) unit
              Stub.stubTrain Stub.stubTrainWeighted Stub.stubMetric false
              3 Stub.ten Stub.ten None Stub.harnessB Stub.harnessB 2
              H3 ten_in_range eq_refl (reach_fresh _ _ _ _ _ _ _ _ _ _) Hi)
    as (Ef & El & Ex & _).
  split; [exact Ef |]. split; [exact El |]. exact Ex.
Defined.

(** C6 (code defect). The training and validation windows of a fold
    should hold all [n] samples between them.  With ten samples in three
    folds, fold 1 trains on samples 3 to 8 and validates on samples 0 to 2:
    nine columns, not ten, and sample 9 is in neither window.  The length
    that the last fold gets, taken from the first training column of
    fold 1, lies inside the staged buffer and holds samples 3 to 9, all
    that fold 1 does not validate on. *)
Theorem middle_fold_leaves_a_sample_out :
  Construct (list nat) 3 Stub.ten Stub.ten None = Ok Stub.harnessB /\
  2 <= 3 /\ 3 <= Arma.n_cols Stub.ten /\ 0 <= 1 < 3 /\
  GetTrainingSubset Stub.harnessB (xs Stub.harnessB) 1
    = Ok [3; 4; 5; 6; 7; 8]%nat /\
  GetValidationSubset Stub.harnessB (xs Stub.harnessB) 1
    = Ok [0; 1; 2]%nat /\
  TrainingSubsetSize Stub.harnessB 1 + ValidationSubsetSize Stub.harnessB 1
    = 9 /\
  TrainingSubsetSize Stub.harnessB 1 + ValidationSubsetSize Stub.harnessB 1
    <> Arma.n_cols Stub.ten /\
  Arma.colptr_view (xs Stub.harnessB) (TrainingSubsetFirstCol Stub.harnessB 1)
    (TrainingSubsetSize Stub.harnessB 2)
    = Ok [3; 4; 5; 6; 7; 8; 9]%nat.
Proof.
  split; [reflexivity |]. split; [lia |].
  split; [vm_compute; discriminate |]. split; [lia |].
  split; [reflexivity |]. split; [reflexivity |].
  split; [reflexivity |].
  split; [vm_compute; discriminate | reflexivity].
Qed.

Lemma validation_windows_partition_witness :
  SizeT.in_range 3 /\ SizeT.in_range (Arma.n_cols Stub.ten) /\
  Construct (list nat) 3 Stub.ten Stub.ten None = Ok Stub.harnessB /\
  3 <= Arma.n_cols Stub.ten /\ 0 <= 9 < Arma.n_cols Stub.ten /\
  map (GetValidationSubset Stub.harnessB (xs Stub.harnessB))
      (validation_order 3)
    = [Ok [0; 1; 2]%nat; Ok [3; 4; 5]%nat; Ok [6; 7; 8; 9]%nat] /\
  InValidationWindow Stub.harnessB Stub.ten 0 9 /\
  exists! i, 0 <= i < 3 /\ InValidationWindow Stub.harnessB Stub.ten i 9.
Proof.
  assert (H3 : SizeT.in_range 3) by (apply small_in_range; lia).
  assert (Hn : 3 <= Arma.n_cols Stub.ten) by (vm_compute; discriminate).
  assert (Hc : 0 <= 9 < Arma.n_cols Stub.ten)
    by (vm_compute; split; [discriminate | reflexivity]).
  split; [exact H3 |]. split; [exact ten_in_range |].
  split; [reflexivity |]. split; [exact Hn |]. split; [exact Hc |].
  split; [reflexivity |].
  split.
  - exists [6; 7; 8; 9]%nat, 3.
    split; [reflexivity |].
    split; [vm_compute; split; [discriminate | reflexivity] |].
    split; reflexivity.
  - exact (proj1
      (validation_windows_partition nat nat nat (list nat) unit
         Stub.stubTrain Stub.stubTrainWeighted Stub.stubMetric false
         3 Stub.ten Stub.ten None Stub.harnessB Stub.harnessB 9
         H3 ten_in_range eq_refl (reach_fresh _ _ _ _ _ _ _ _ _ _) Hn Hc)).
Defined.

Lemma construction_rejects_small_k_witness :
  1 < 2 /\
  Construct (list nat) 1 Stub.ten Stub.ten (Some Stub.ten)
    = Err InvalidArgument.
Proof.
  assert (H : 1 < 2) by lia.
  split; [exact H |].
  exact (construction_rejects_small_k nat nat nat (list nat)
           1 Stub.ten Stub.ten (Some Stub.ten) H).
Defined.

(** The harness of scenario B after a call that failed in its last fold. *)
Lemma Model_before_and_after_run_witness :
  SizeT.in_range 3 /\
  Construct (list nat) 3 Stub.ten Stub.ten None = Ok Stub.harnessB /\
  Evaluate Stub.failingTrain Stub.stubTrainWeighted Stub.stubMetric false
    Stub.harnessB tt = (Err (Thrown 1), Stub.harnessB) /\
  Model Stub.harnessB = Err LogicError.
Proof.
  assert (H3 : SizeT.in_range 3) by (apply small_in_range; lia).
  assert (E : Evaluate Stub.failingTrain Stub.stubTrainWeighted
                Stub.stubMetric false Stub.harnessB tt
              = (Err (Thrown 1), Stub.harnessB)) by reflexivity.
  split; [exact H3 |]. split; [reflexivity |]. split; [exact E |].
  exact (proj1 (Model_before_and_after_run nat nat nat (list nat) unit
           Stub.failingTrain Stub.stubTrainWeighted Stub.stubMetric false
           3 Stub.ten Stub.ten None Stub.harnessB H3 eq_refl)
           Stub.harnessB
           (nrc_failed _ _ _ _ _ _ _ _ _ _ _ tt _ _
              (nrc_fresh _ _ _ _ _ _ _ _ _ _) E)).
Defined.

(** A harness that retains the model [[42]] of an earlier run keeps it when
    the training of the last fold fails. *)
Lemma failed_run_keeps_model_witness :
  let h := set_modelPtr Stub.harnessB (Some [42%nat]) in
  SizeT.in_range (k h) /\
  Evaluate Stub.failingTrain Stub.stubTrainWeighted Stub.stubMetric false
    h tt = (Err (Thrown 1), h) /\
  Model h = Ok [42%nat].
Proof.
  cbv zeta.
  set (h := set_modelPtr Stub.harnessB (Some [42%nat])).
  assert (H3 : SizeT.in_range (k h)) by (apply small_in_range; cbn; lia).
  assert (E : Evaluate Stub.failingTrain Stub.stubTrainWeighted
                Stub.stubMetric false h tt = (Err (Thrown 1), h))
    by reflexivity.
  split; [exact H3 |]. split; [exact E |].
  destruct (proj1 (failed_run_keeps_model nat nat nat (list nat) unit
              Stub.failingTrain Stub.stubTrainWeighted Stub.stubMetric false
              h tt (Err (Thrown 1)) h H3 E) (Thrown 1) eq_refl)
    as (_ & _ & Em).
  exact Em.
Defined.

(** Ten samples in three folds: the validation windows have 4, 3 and 3
    columns, and the stub metric scores each fold by that number. *)
Lemma Evaluate_returns_unweighted_mean_witness :
  Evaluate Stub.stubTrain Stub.stubTrainWeighted Stub.stubMetric false
    Stub.harnessB tt
  = (Ok (10 # 3)%Q,
     set_modelPtr Stub.harnessB (Some [6; 7; 8; 9; 0; 1; 2]%nat)) /\
  exists scores,
    Forall2 (fun i s_i => exists m,
               TrainingCall Stub.stubTrain Stub.stubTrainWeighted false
                 Stub.harnessB tt i = Ok m /\
               Score Stub.stubMetric Stub.harnessB m i = Ok s_i)
            (fold_indices 3) scores /\
    length scores = 3%nat /\
    1 <= 3 /\
    (10 # 3)%Q = (Arma.accu scores / inject_Z 3)%Q.
Proof.
  assert (E : Evaluate Stub.stubTrain Stub.stubTrainWeighted Stub.stubMetric
                false Stub.harnessB tt
              = (Ok (10 # 3)%Q,
                 set_modelPtr Stub.harnessB
                   (Some [6; 7; 8; 9; 0; 1; 2]%nat))) by reflexivity.
  split; [exact E |].
  exact (Evaluate_returns_unweighted_mean nat nat nat (list nat) unit
           Stub.stubTrain Stub.stubTrainWeighted Stub.stubMetric false
           Stub.harnessB tt (10 # 3)%Q _ E).
Defined.

(** The per-fold scores of that run are 4, 3 and 3; their plain mean is
    10/3, whereas a mean weighted by the validation sizes would be
    (4*4 + 3*3 + 3*3)/10 = 34/10. *)
Lemma mean_is_not_weighted_by_fold_size :
  map (fun i => s <- TrainingCall Stub.stubTrain Stub.stubTrainWeighted false
                       Stub.harnessB tt i ;;
                Score Stub.stubMetric Stub.harnessB s i)
      (fold_indices 3)
  = [Ok (4 # 1)%Q; Ok (3 # 1)%Q; Ok (3 # 1)%Q] /\
  fst (Evaluate Stub.stubTrain Stub.stubTrainWeighted Stub.stubMetric false
         Stub.harnessB tt) = Ok (10 # 3)%Q /\
  ~ ((10 # 3) == (34 # 10))%Q.
Proof.
  split; [reflexivity |]. split; [reflexivity |].
  intros H. vm_compute in H. discriminate H.
Qed.

(** Scenarios A and C: the validation windows of the first two folds. *)
Lemma scenario_validation_windows :
  map (GetValidationSubset Stub.harnessA (xs Stub.harnessA)) [0; 1]
    = [Ok [8; 9]%nat; Ok [0; 1]%nat] /\
  TrainingSubsetSize Stub.harnessA 4 = 2 + 3 * 2 /\
  map (GetValidationSubset Stub.harnessC (xs Stub.harnessC)) [0; 1]
    = [Ok [5; 6; 7; 8; 9]%nat; Ok [0; 1; 2; 3; 4]%nat].
Proof. repeat split. Qed.

(** A weighted run: with one weight per sample and an algorithm that takes
    weights, every fold is trained with its window of the staged weights. *)
Lemma weighted_run_example :
  exists h,
    Construct (list nat) 3 Stub.ten Stub.ten (Some Stub.ten) = Ok h /\
    Evaluate Stub.stubTrain Stub.stubTrainWeighted Stub.stubMetric true h tt
    = (Ok (10 # 3)%Q,
       set_modelPtr h (Some ([6; 7; 8; 9; 0; 1; 2] ++ [6; 7; 8; 9; 0; 1; 2])%nat)).
Proof. eexists. split; reflexivity. Qed.

(** * Further scenarios *)

Lemma three_in_range : SizeT.in_range 3.
Proof. apply small_in_range. lia. Qed.

Lemma weighted_scenario_constructed :
  Construct (list nat) 3 Stub.ten Stub.ten (Some Stub.tenWeights)
  = Ok Stub.harnessW.
Proof. reflexivity. Qed.

Lemma validation_reads_original_witness :
  SizeT.in_range 3 /\ SizeT.in_range (Arma.n_cols Stub.ten) /\
  Construct (list nat) 3 Stub.ten Stub.ten None = Ok Stub.harnessB /\
  0 <= 0 < 3 /\
  GetValidationSubset Stub.harnessB (xs Stub.harnessB) 0
    = Ok (Arma.span Stub.ten 6 4).
Proof.
  assert (Hi : 0 <= 0 < 3) by lia.
  split; [exact three_in_range |]. split; [exact ten_in_range |].
  split; [reflexivity |]. split; [exact Hi |].
  exact (proj1 (proj2
    (validation_reads_original nat nat nat (list nat) unit
       Stub.stubTrain Stub.stubTrainWeighted Stub.stubMetric false
       3 Stub.ten Stub.ten None Stub.harnessB Stub.harnessB 0
       three_in_range ten_in_range eq_refl
       (reach_fresh _ _ _ _ _ _ _ _ _ _) Hi))).
Defined.

Lemma training_window_is_cyclic_witness :
  SizeT.in_range 3 /\ SizeT.in_range (Arma.n_cols Stub.ten) /\
  Construct (list nat) 3 Stub.ten Stub.ten (Some Stub.tenWeights)
    = Ok Stub.harnessW /\
  0 <= 2 < 3 /\
  GetTrainingSubset Stub.harnessW (weights Stub.harnessW) 2
    = Ok [106; 107; 108; 109; 100; 101; 102]%nat.
Proof.
  assert (Hi : 0 <= 2 < 3) by lia.
  split; [exact three_in_range |]. split; [exact ten_in_range |].
  split; [reflexivity |]. split; [exact Hi |].
  exact (proj2 (proj2
    (training_window_is_cyclic nat nat nat (list nat) unit
       Stub.stubTrain Stub.stubTrainWeighted Stub.stubMetric true
       3 Stub.ten Stub.ten (Some Stub.tenWeights)
       Stub.harnessW Stub.harnessW 2
       three_in_range ten_in_range eq_refl
       (reach_fresh _ _ _ _ _ _ _ _ _ _) Hi))
    Stub.tenWeights eq_refl).
Defined.

Lemma fold_windows_disjoint_witness :
  SizeT.in_range 3 /\ SizeT.in_range (Arma.n_cols Stub.ten) /\
  Construct (list nat) 3 Stub.ten Stub.ten None = Ok Stub.harnessB /\
  0 <= 2 < 3 /\
  In 1 (TrainingColumns Stub.harnessB (Arma.n_cols Stub.ten) 2) /\
  ~ In 1 (ValidationColumns Stub.harnessB (Arma.n_cols Stub.ten) 2).
Proof.
  assert (Hi : 0 <= 2 < 3) by lia.
  assert (Ht : In 1 (TrainingColumns Stub.harnessB (Arma.n_cols Stub.ten) 2)).
  { cbv. do 5 right. left. reflexivity. }
  split; [exact three_in_range |]. split; [exact ten_in_range |].
  split; [reflexivity |]. split; [exact Hi |]. split; [exact Ht |].
  exact (fold_windows_disjoint nat nat nat (list nat) unit
           Stub.stubTrain Stub.stubTrainWeighted Stub.stubMetric false
           3 Stub.ten Stub.ten None Stub.harnessB Stub.harnessB 2 1
           three_in_range ten_in_range eq_refl
           (reach_fresh _ _ _ _ _ _ _ _ _ _) Hi Ht).
Defined.

Lemma outer_folds_use_every_sample_witness :
  SizeT.in_range 3 /\ SizeT.in_range (Arma.n_cols Stub.ten) /\
  Construct (list nat) 3 Stub.ten Stub.ten None = Ok Stub.harnessB /\
  (2 = 0 \/ 2 = 3 - 1) /\ 0 <= 9 < Arma.n_cols Stub.ten /\
  (In 9 (TrainingColumns Stub.harnessB (Arma.n_cols Stub.ten) 2) \/
   In 9 (ValidationColumns Stub.harnessB (Arma.n_cols Stub.ten) 2)).
Proof.
  assert (Hio : 2 = 0 \/ 2 = 3 - 1) by (right; reflexivity).
  assert (Hc : 0 <= 9 < Arma.n_cols Stub.ten)
    by (vm_compute; split; [discriminate | reflexivity]).
  split; [exact three_in_range |]. split; [exact ten_in_range |].
  split; [reflexivity |]. split; [exact Hio |]. split; [exact Hc |].
  exact (outer_folds_use_every_sample nat nat nat (list nat) unit
           Stub.stubTrain Stub.stubTrainWeighted Stub.stubMetric false
           3 Stub.ten Stub.ten None Stub.harnessB Stub.harnessB 2 9
           three_in_range ten_in_range eq_refl
           (reach_fresh _ _ _ _ _ _ _ _ _ _) Hio Hc).
Defined.

Lemma training_window_has_no_repeats_witness :
  SizeT.in_range 3 /\ SizeT.in_range (Arma.n_cols Stub.ten) /\
  Construct (list nat) 3 Stub.ten Stub.ten None = Ok Stub.harnessB /\
  0 <= 2 < 3 /\
  TrainingColumns Stub.harnessB (Arma.n_cols Stub.ten) 2
    = [6; 7; 8; 9; 0; 1; 2] /\
  NoDup (TrainingColumns Stub.harnessB (Arma.n_cols Stub.ten) 2).
Proof.
  assert (Hi : 0 <= 2 < 3) by lia.
  split; [exact three_in_range |]. split; [exact ten_in_range |].
  split; [reflexivity |]. split; [exact Hi |]. split; [reflexivity |].
  exact (training_window_has_no_repeats nat nat nat (list nat) unit
           Stub.stubTrain Stub.stubTrainWeighted Stub.stubMetric false
           3 Stub.ten Stub.ten None Stub.harnessB Stub.harnessB 2
           three_in_range ten_in_range eq_refl
           (reach_fresh _ _ _ _ _ _ _ _ _ _) Hi).
Defined.

Lemma fold_calls_on_original_data_witness :
  SizeT.in_range 3 /\ SizeT.in_range (Arma.n_cols Stub.ten) /\
  Construct (list nat) 3 Stub.ten Stub.ten (Some Stub.tenWeights)
    = Ok Stub.harnessW /\
  0 <= 1 < 3 /\
  TrainingCall Stub.stubTrain Stub.stubTrainWeighted true
    Stub.harnessW tt 1
  = Stub.stubTrainWeighted [3; 4; 5; 6; 7; 8]%nat [3; 4; 5; 6; 7; 8]%nat
      [103; 104; 105; 106; 107; 108]%nat tt.
Proof.
  assert (Hi : 0 <= 1 < 3) by lia.
  split; [exact three_in_range |]. split; [exact ten_in_range |].
  split; [reflexivity |]. split; [exact Hi |].
  exact (proj1
    (fold_calls_on_original_data nat nat nat (list nat) unit
       Stub.stubTrain Stub.stubTrainWeighted Stub.stubMetric true
       3 Stub.ten Stub.ten (Some Stub.tenWeights)
       Stub.harnessW Stub.harnessW tt 1
       three_in_range ten_in_range eq_refl
       (reach_fresh _ _ _ _ _ _ _ _ _ _) Hi)).
Defined.

(** The harness of scenario B after one completed run. *)
Lemma scenario_B_after_a_run :
  Reachable Stub.stubTrain Stub.stubTrainWeighted Stub.stubMetric false
    Stub.harnessB
    (set_modelPtr Stub.harnessB (Some [6; 7; 8; 9; 0; 1; 2]%nat)).
Proof.
  apply (reach_run _ _ _ _ _ _ _ _ _ _ Stub.harnessB tt (Ok (10 # 3)%Q)).
  - apply reach_fresh.
  - reflexivity.
Defined.

Lemma runs_keep_staged_data_witness :
  let h := set_modelPtr Stub.harnessB (Some [6; 7; 8; 9; 0; 1; 2]%nat) in
  SizeT.in_range (k Stub.harnessB) /\
  Reachable Stub.stubTrain Stub.stubTrainWeighted Stub.stubMetric false
    Stub.harnessB h /\
  xs h = xs Stub.harnessB.
Proof.
  cbv zeta.
  split; [exact three_in_range |]. split; [exact scenario_B_after_a_run |].
  exact (proj1 (proj2
    (runs_keep_staged_data nat nat nat (list nat) unit
       Stub.stubTrain Stub.stubTrainWeighted Stub.stubMetric false
       Stub.harnessB _ three_in_range scenario_B_after_a_run))).
Defined.

Lemma score_independent_of_history_witness :
  let h := set_modelPtr Stub.harnessB (Some [6; 7; 8; 9; 0; 1; 2]%nat) in
  SizeT.in_range (k Stub.harnessB) /\
  Reachable Stub.stubTrain Stub.stubTrainWeighted Stub.stubMetric false
    Stub.harnessB h /\
  fst (Evaluate Stub.stubTrain Stub.stubTrainWeighted Stub.stubMetric false
         h tt)
  = fst (Evaluate Stub.stubTrain Stub.stubTrainWeighted Stub.stubMetric false
           Stub.harnessB tt).
Proof.
  cbv zeta.
  split; [exact three_in_range |]. split; [exact scenario_B_after_a_run |].
  exact (score_independent_of_history nat nat nat (list nat) unit
           Stub.stubTrain Stub.stubTrainWeighted Stub.stubMetric false
           Stub.harnessB _ tt three_in_range scenario_B_after_a_run).
Defined.

(** The metric fails on fold 1, after fold 0 was trained and scored. *)
Lemma first_failure_propagates_witness :
  SizeT.in_range (k Stub.harnessB) /\ 0 <= 1 < k Stub.harnessB /\
  FoldOutcome Stub.stubTrain Stub.stubTrainWeighted Stub.failingMetric false
    Stub.harnessB tt 0 = Ok (4 # 1)%Q /\
  FoldOutcome Stub.stubTrain Stub.stubTrainWeighted Stub.failingMetric false
    Stub.harnessB tt 1 = Err (Thrown 2) /\
  Evaluate Stub.stubTrain Stub.stubTrainWeighted Stub.failingMetric false
    Stub.harnessB tt = (Err (Thrown 2), Stub.harnessB).
Proof.
  assert (Hi : 0 <= 1 < k Stub.harnessB) by (cbn; lia).
  assert (H0 : FoldOutcome Stub.stubTrain Stub.stubTrainWeighted
                 Stub.failingMetric false Stub.harnessB tt 0
               = Ok (4 # 1)%Q) by reflexivity.
  assert (H1 : FoldOutcome Stub.stubTrain Stub.stubTrainWeighted
                 Stub.failingMetric false Stub.harnessB tt 1
               = Err (Thrown 2)) by reflexivity.
  split; [exact three_in_range |]. split; [exact Hi |].
  split; [exact H0 |]. split; [exact H1 |].
  apply (first_failure_propagates nat nat nat (list nat) unit
           Stub.stubTrain Stub.stubTrainWeighted Stub.failingMetric false
           Stub.harnessB tt 1 (Thrown 2) three_in_range Hi);
    [| exact H1].
  intros j Hj. assert (j = 0) as -> by lia. exists (4 # 1)%Q. exact H0.
Defined.

Lemma Evaluate_succeeds_with_total_collaborators_witness :
  (forall x y a, exists m, Stub.stubTrain x y a = Ok m) /\
  (forall x y w a, exists m, Stub.stubTrainWeighted x y w a = Ok m) /\
  (forall m x y, exists s, Stub.stubMetric m x y = Ok s) /\
  SizeT.in_range 3 /\ SizeT.in_range (Arma.n_cols Stub.ten) /\
  Construct (list nat) 3 Stub.ten Stub.ten (Some Stub.tenWeights)
    = Ok Stub.harnessW /\
  exists s h',
    Evaluate Stub.stubTrain Stub.stubTrainWeighted Stub.stubMetric true
      Stub.harnessW tt = (Ok s, h').
Proof.
  assert (HT : forall x y a, exists m, Stub.stubTrain x y a = Ok m)
    by (intros; eexists; reflexivity).
  assert (HW : forall x y w a,
             exists m, Stub.stubTrainWeighted x y w a = Ok m)
    by (intros; eexists; reflexivity).
  assert (HM : forall m x y, exists s, Stub.stubMetric m x y = Ok s)
    by (intros; eexists; reflexivity).
  split; [exact HT |]. split; [exact HW |]. split; [exact HM |].
  split; [exact three_in_range |]. split; [exact ten_in_range |].
  split; [reflexivity |].
  exact (Evaluate_succeeds_with_total_collaborators
           nat nat nat (list nat) unit
           Stub.stubTrain Stub.stubTrainWeighted Stub.stubMetric true
           3 Stub.ten Stub.ten (Some Stub.tenWeights)
           Stub.harnessW Stub.harnessW tt HT HW HM
           three_in_range ten_in_range eq_refl
           (reach_fresh _ _ _ _ _ _ _ _ _ _)).
Defined.

Lemma staged_buffer_size_witness :
  SizeT.in_range 3 /\ SizeT.in_range (Arma.n_cols Stub.ten) /\
  Construct (list nat) 3 Stub.ten Stub.ten None = Ok Stub.harnessB /\
  Arma.n_cols (xs Stub.harnessB) = 10 + 3 * (3 - 2).
Proof.
  split; [exact three_in_range |]. split; [exact ten_in_range |].
  split; [reflexivity |].
  exact (proj1
    (staged_buffer_size nat nat nat (list nat) unit
       Stub.stubTrain Stub.stubTrainWeighted Stub.stubMetric false
       3 Stub.ten Stub.ten None Stub.harnessB Stub.harnessB
       three_in_range ten_in_range eq_refl
       (reach_fresh _ _ _ _ _ _ _ _ _ _))).
Defined.

(** Two folds of an empty dataset can be constructed; three folds of two
    samples cannot. *)
Lemma construction_needs_enough_samples_witness :
  SizeT.in_range 2 /\ SizeT.in_range (Arma.n_cols (@nil nat)) /\ 2 <= 2 /\
  (exists h : KFoldCV nat nat nat (list nat),
     Construct (list nat) 2 (@nil nat) (@nil nat) (@None (list nat)) = Ok h).
Proof.
  assert (H2r : SizeT.in_range 2) by (apply small_in_range; lia).
  assert (H0r : SizeT.in_range (Arma.n_cols (@nil nat)))
    by (apply small_in_range; cbn; lia).
  assert (H2 : 2 <= 2) by lia.
  split; [exact H2r |]. split; [exact H0r |]. split; [exact H2 |].
  apply (proj1 (construction_needs_enough_samples nat nat nat (list nat)
           2 (@nil nat) (@nil nat) (@None (list nat)) H2r H0r H2 eq_refl
           (fun w (E : None = Some w) =>
              match E in _ = o
                return match o with None => True | Some _ => _ end
              with eq_refl => I end))).
  left. reflexivity.
Defined.
